(** * vpn-commander: the routing-rule mutator, the authorization cache and
      the service-status classifier

    A shallow embedding of [vpn_manager.go], [ssh_client.go], the handlers of
    [telegram_bot.go] and the environment check of [main.go].  Go values are
    modelled as follows:

    - [string] is a byte string ([String.string]);
    - [[]T] is [list T], a [*T] that may be nil is [option T];
    - [map[int64]VPNStatus] is a [gmap Z VPNStatus];
    - a Go [error] result is [option error] ([None] is [nil]);
    - [interface{}] fields, which the program stores and never inspects, are
      values of a type parameter [any];
    - the router behind the SSH session is an explicit state [Remote] that
      every remote operation threads through; Telegram behind the bot API is
      an explicit state [Telegram] in the same way. *)

From Stdlib Require Import ZArith Ascii String List Bool.
From stdpp Require Import base option list gmap strings fin_maps.

Local Open Scope string_scope.
Local Open Scope list_scope.

(** ** Errors *)

(** [fmt.Errorf(msg)] and [fmt.Errorf(msg + ": %w", cause)]. *)
Inductive error : Type :=
| Errorf (msg : string)
| Wrapf (msg : string) (cause : error).

(** ** vpn_manager.go: data model *)

(** [type VPNStatus string] with its three constants. *)
Definition VPNStatus : Type := string.
Definition VPNStatusEnabled : VPNStatus := "enabled".
Definition VPNStatusDisabled : VPNStatus := "disabled".
Definition VPNStatusUnknown : VPNStatus := "unknown".

Section DataModel.
Variable any : Type.

(** [type Rule struct]. *)
Record Rule : Type := mkRule {
  Type_ : string;
  InboundTag : list string;
  OutboundTag : string;
  Network : string;
  Domain : any;
  IP : any;
  Port : string;
  Protocol : any
}.

(** [type RoutingConfig struct]. *)
Record RoutingConfig : Type := mkRoutingConfig {
  DomainStrategy : string;
  Rules : list Rule
}.

(** [type XrayConfig struct]; [Routing] is a pointer. *)
Record XrayConfig : Type := mkXrayConfig {
  Routing : option RoutingConfig
}.
End DataModel.

Arguments mkRule {any}.
Arguments Type_ {any}.
Arguments InboundTag {any}.
Arguments OutboundTag {any}.
Arguments Network {any}.
Arguments Domain {any}.
Arguments IP {any}.
Arguments Port {any}.
Arguments Protocol {any}.
Arguments mkRoutingConfig {any}.
Arguments DomainStrategy {any}.
Arguments Rules {any}.
Arguments mkXrayConfig {any}.
Arguments Routing {any}.

(** The assignment [rule.OutboundTag = tag]. *)
Definition withOutboundTag {any} (rule : Rule any) (tag : string) : Rule any :=
  {| Type_ := Type_ rule;
     InboundTag := InboundTag rule;
     OutboundTag := tag;
     Network := Network rule;
     Domain := Domain rule;
     IP := IP rule;
     Port := Port rule;
     Protocol := Protocol rule |}.

(** ** vpn_manager.go: isTargetRule *)

(** One iteration of the loop over [rule.InboundTag]; the state is the pair
    [(hasRedirect, hasTproxy)]. *)
Definition scanTag (flags : bool * bool) (tag : string) : bool * bool :=
  if String.eqb tag "redirect" then (true, snd flags)
  else if String.eqb tag "tproxy" then (fst flags, true)
  else flags.

Definition isTargetRule {any} (rule : Rule any) : bool :=
  let flags := fold_left scanTag (InboundTag rule) (false, false) in
  let hasRedirect := fst flags in
  let hasTproxy := snd flags in
  let hasCorrectNetwork := String.eqb (Network rule) "tcp,udp" in
  hasRedirect && hasTproxy && hasCorrectNetwork.

(** ** Go's [strings] package on byte strings *)

Definition LF : ascii := "010"%char.
Definition ESC : ascii := "027"%char.

Definition bytes (codes : list nat) : string :=
  fold_right (fun n s => String (ascii_of_nat n) s) "" codes.

Fixpoint dropBytes (n : nat) (s : string) : string :=
  match n, s with
  | S k, String _ s' => dropBytes k s'
  | _, _ => s
  end.

Fixpoint reverseOnto (s acc : string) : string :=
  match s with
  | "" => acc
  | String c s' => reverseOnto s' (String c acc)
  end.

Definition reverse (s : string) : string := reverseOnto s "".

(** [strings.HasPrefix]. *)
Fixpoint HasPrefix (s prefix : string) : bool :=
  match prefix with
  | "" => true
  | String c prefix' =>
      match s with
      | "" => false
      | String d s' => Ascii.eqb c d && HasPrefix s' prefix'
      end
  end.

(** [strings.Contains]: [substr] occurs at some byte offset of [s]. *)
Fixpoint Contains (s substr : string) : bool :=
  HasPrefix s substr ||
  match s with
  | "" => false
  | String _ s' => Contains s' substr
  end.

(** [strings.ReplaceAll(s, old, new)] for a non-empty [old], which is what
    every caller passes: the non-overlapping occurrences of [old] are replaced
    from left to right.  [skip] counts the bytes of a matched occurrence that
    are still to be dropped. *)
Fixpoint replaceFrom (old new : string) (skip : nat) (s : string) : string :=
  match s with
  | "" => ""
  | String c s' =>
      match skip with
      | S k => replaceFrom old new k s'
      | O =>
          if HasPrefix s old
          then new +:+ replaceFrom old new (String.length old - 1) s'
          else String c (replaceFrom old new 0 s')
      end
  end.

Definition ReplaceAll (s old new : string) : string := replaceFrom old new 0 s.

(** [strings.Split(s, sep)] for a one-byte separator. *)
Fixpoint Split (s : string) (sep : ascii) : list string :=
  match s with
  | "" => [""]
  | String c s' =>
      if Ascii.eqb c sep then "" :: Split s' sep
      else match Split s' sep with
           | piece :: pieces => String c piece :: pieces
           | [] => [String c ""]
           end
  end.

(** [strings.Join]. *)
Fixpoint Join (elems : list string) (sep : string) : string :=
  match elems with
  | [] => ""
  | [e] => e
  | e :: rest => e +:+ sep +:+ Join rest sep
  end.

(** The UTF-8 encodings of the code points for which [unicode.IsSpace] holds:
    TAB, LF, VT, FF, CR, SPACE, U+0085, U+00A0, U+1680, U+2000..U+200A,
    U+2028, U+2029, U+202F, U+205F, U+3000. *)
Definition spaceRunes : list string :=
  map bytes
    [ [9]; [10]; [11]; [12]; [13]; [32]; [194; 133]; [194; 160];
      [225; 154; 128];
      [226; 128; 128]; [226; 128; 129]; [226; 128; 130]; [226; 128; 131];
      [226; 128; 132]; [226; 128; 133]; [226; 128; 134]; [226; 128; 135];
      [226; 128; 136]; [226; 128; 137]; [226; 128; 138];
      [226; 128; 168]; [226; 128; 169]; [226; 128; 175];
      [226; 129; 159]; [227; 128; 128] ].

(** Strips leading occurrences of the given byte sequences; every round
    removes at least one byte, so [String.length s] rounds are enough. *)
Fixpoint trimPrefixes (runes : list string) (fuel : nat) (s : string) : string :=
  match fuel with
  | O => s
  | S fuel' =>
      match List.find (HasPrefix s) runes with
      | Some rune => trimPrefixes runes fuel' (dropBytes (String.length rune) s)
      | None => s
      end
  end.

Definition trimLeftSpace (s : string) : string :=
  trimPrefixes spaceRunes (String.length s) s.

Definition trimRightSpace (s : string) : string :=
  reverse (trimPrefixes (map reverse spaceRunes) (String.length s) (reverse s)).

(** [strings.TrimSpace]. *)
Definition TrimSpace (s : string) : string := trimRightSpace (trimLeftSpace s).

(** ** ssh_client.go: the remote host and the command channel *)

(** The command lines the client sends. *)
Inductive Command : Type :=
| CmdCat (filePath : string)
| CmdBackup (filePath : string)
| CmdHeredoc (filePath content : string)
| CmdXkeenRestart
| CmdXkeenStart
| CmdXkeenStop
| CmdXkeenStatus
| CmdEcho.

Definition xkeenPrefix : string :=
  "export PATH=/opt/sbin:/opt/bin:/opt/usr/sbin:/opt/usr/bin:/usr/sbin:/usr/bin:/sbin:/bin && cd /opt/etc/xray/configs && ".

(** The text of each command line, as the [fmt.Sprintf] calls build it. *)
Definition commandLine (cmd : Command) : string :=
  match cmd with
  | CmdCat filePath => "cat " +:+ filePath
  | CmdBackup filePath =>
      "cp " +:+ filePath +:+ " " +:+ filePath +:+ ".backup.$(date +%Y%m%d-%H%M%S)"
  | CmdHeredoc filePath content =>
      "cat > " +:+ filePath +:+ " << 'EOF'" +:+ String LF content +:+ String LF "EOF"
  | CmdXkeenRestart => "xkeen -restart"
  | CmdXkeenStart => xkeenPrefix +:+ "xkeen -start"
  | CmdXkeenStop => xkeenPrefix +:+ "xkeen -stop"
  | CmdXkeenStatus => xkeenPrefix +:+ "xkeen -status"
  | CmdEcho => "echo 'connection_test'"
  end.

(** The router as the client sees it through the session.

    - [files]: the remote file store;
    - [clock]: what [date +%Y%m%d-%H%M%S] prints;
    - [statusOutput]: what [xkeen -status] prints;
    - [faults]: for each of the coming calls of [ExecuteCommand], the error it
      returns from its transport (connect, session or command failure), or
      [None] when the transport is fine; an exhausted list means no failure;
    - [history]: the commands sent so far, oldest first, each with whether it
      succeeded. *)
Record Remote : Type := mkRemote {
  files : gmap string string;
  clock : string;
  statusOutput : string;
  faults : list (option error);
  history : list (Command * bool)
}.

(** What a command that reaches the remote shell does there: its combined
    output, whether it exits with status 0, and the file store it leaves.  A
    heredoc write leaves the file holding the content it was given, so that a
    later [cat] returns what was written. *)
Definition runCommand (cmd : Command) (r : Remote)
  : string * bool * gmap string string :=
  match cmd with
  | CmdCat filePath =>
      match files r !! filePath with
      | Some content => (content, true, files r)
      | None => ("", false, files r)
      end
  | CmdBackup filePath =>
      match files r !! filePath with
      | Some content =>
          ("", true, <[filePath +:+ ".backup." +:+ clock r := content]> (files r))
      | None => ("", false, files r)
      end
  | CmdHeredoc filePath content => ("", true, <[filePath := content]> (files r))
  | CmdXkeenStatus => (statusOutput r, true, files r)
  | CmdXkeenRestart | CmdXkeenStart | CmdXkeenStop => ("", true, files r)
  | CmdEcho => ("connection_test" +:+ String LF "", true, files r)
  end.

Definition stepRemote (r : Remote) (cmd : Command) (ok : bool)
    (fs : gmap string string) : Remote :=
  {| files := fs;
     clock := clock r;
     statusOutput := statusOutput r;
     faults := tail (faults r);
     history := history r ++ [(cmd, ok)] |}.

(** [ExecuteCommand]: the combined output and the error, with the remote
    state the call leaves. *)
Definition ExecuteCommand (command : Command) (r : Remote)
  : string * option error * Remote :=
  match head (faults r) with
  | Some (Some e) => ("", Some e, stepRemote r command false (files r))
  | _ =>
      let '(output, ok, fs) := runCommand command r in
      if ok then (output, None, stepRemote r command true fs)
      else (output, Some (Wrapf "command execution failed" (Errorf "exit status")),
            stepRemote r command false fs)
  end.

(** [ReadFile]. *)
Definition ReadFile (filePath : string) (r : Remote)
  : string * option error * Remote :=
  ExecuteCommand (CmdCat filePath) r.

(** [WriteFile]: a failed backup is logged and ignored. *)
Definition WriteFile (filePath content : string) (r : Remote)
  : option error * Remote :=
  let '(_, _, r1) := ExecuteCommand (CmdBackup filePath) r in
  let '(_, err, r2) := ExecuteCommand (CmdHeredoc filePath content) r1 in
  match err with
  | Some e => (Some (Wrapf ("failed to write file " +:+ filePath) e), r2)
  | None => (None, r2)
  end.

(** [RestartService], [StartService], [StopService]. *)
Definition RestartService (r : Remote) : option error * Remote :=
  let '(_, err, r1) := ExecuteCommand CmdXkeenRestart r in
  match err with
  | Some e => (Some (Wrapf "failed to restart Xray service" e), r1)
  | None => (None, r1)
  end.

Definition StartService (r : Remote) : option error * Remote :=
  let '(_, err, r1) := ExecuteCommand CmdXkeenStart r in
  match err with
  | Some e => (Some (Wrapf "failed to start Xray service" e), r1)
  | None => (None, r1)
  end.

Definition StopService (r : Remote) : option error * Remote :=
  let '(_, err, r1) := ExecuteCommand CmdXkeenStop r in
  match err with
  | Some e => (Some (Wrapf "failed to stop Xray service" e), r1)
  | None => (None, r1)
  end.

(** The filter of [GetServiceStatus]: a trimmed line is kept when it is not
    empty and does not mention the missing [ps] applet. *)
Definition keepStatusLine (line : string) : bool :=
  negb (String.eqb line "")
  && negb (Contains line "ps: applet not found")
  && negb (Contains line "applet not found").

Definition cleanStatusOutput (output : string) : string :=
  let lines := Split output LF in
  let cleanLines := List.filter keepStatusLine (map TrimSpace lines) in
  Join cleanLines (String LF "").

(** [GetServiceStatus]. *)
Definition GetServiceStatus (r : Remote) : string * option error * Remote :=
  let '(output, err, r1) := ExecuteCommand CmdXkeenStatus r in
  match err with
  | Some e => ("", Some (Wrapf "failed to get Xray service status" e), r1)
  | None => (cleanStatusOutput output, None, r1)
  end.

(** ** encoding/json *)

(** The two library calls the manager makes on the configuration document.
    [json_Unmarshal] decodes a text into an [XrayConfig] following the struct
    tags; [json_MarshalIndent] is [json.MarshalIndent(config, "", "  ")]. *)
Class JSON (any : Type) : Type := {
  json_Unmarshal : string -> error + XrayConfig any;
  json_MarshalIndent : XrayConfig any -> error + string
}.

(** ** vpn_manager.go: the manager *)

Record VPNManager : Type := mkVPNManager {
  configPath : string
}.

Definition NewVPNManager : VPNManager :=
  {| configPath := "/opt/etc/xray/configs/05_routing.json" |}.

Definition GetConfigPath (vm : VPNManager) : string := configPath vm.

Definition SetConfigPath (vm : VPNManager) (path : string) : VPNManager :=
  {| configPath := path |}.

(** The [switch] on [rule.OutboundTag] in [GetStatus]. *)
Definition statusOfTag (outboundTag : string) : VPNStatus * option error :=
  if String.eqb outboundTag "vless-reality" then (VPNStatusEnabled, None)
  else if String.eqb outboundTag "direct" then (VPNStatusDisabled, None)
  else (VPNStatusUnknown, None).

(** The loop of [GetStatus]: it returns at the first target rule. *)
Fixpoint scanStatus {any} (rules : list (Rule any)) : VPNStatus * option error :=
  match rules with
  | [] => (VPNStatusUnknown, Some (Errorf "target routing rule not found"))
  | rule :: rest =>
      if isTargetRule rule then statusOfTag (OutboundTag rule)
      else scanStatus rest
  end.

Definition GetStatus {any} {J : JSON any} (vm : VPNManager) (r : Remote)
  : VPNStatus * option error * Remote :=
  let '(configContent, err, r1) := ReadFile (configPath vm) r in
  match err with
  | Some e => (VPNStatusUnknown, Some (Wrapf "failed to read config file" e), r1)
  | None =>
      match json_Unmarshal configContent with
      | inl e => (VPNStatusUnknown, Some (Wrapf "failed to parse config JSON" e), r1)
      | inr config =>
          match Routing config with
          | None =>
              (VPNStatusUnknown, Some (Errorf "no routing configuration found"), r1)
          | Some routing => (scanStatus (Rules routing), r1)
          end
      end
  end.

(** [restartXrayService]. *)
Definition restartXrayService (r : Remote) : option error * Remote :=
  let '(err, r1) := RestartService r in
  match err with
  | Some e => (Some e, r1)
  | None => (None, r1)
  end.

(** [config.Routing.Rules[lastRuleIndex].OutboundTag = outboundTag]. *)
Definition updateRule {any} (routing : RoutingConfig any) (lastRuleIndex : nat)
    (lastRule : Rule any) (outboundTag : string) : XrayConfig any :=
  {| Routing := Some
       {| DomainStrategy := DomainStrategy routing;
          Rules := <[lastRuleIndex := withOutboundTag lastRule outboundTag]>
                     (Rules routing) |} |}.

(** [setOutboundTag].  The index [len(rules) - 1] is in range once the
    emptiness check has passed; out of range Go would panic. *)
Definition setOutboundTag {any} {J : JSON any} (vm : VPNManager) (outboundTag : string)
    (r : Remote) : option error * Remote :=
  let '(configContent, err, r1) := ReadFile (configPath vm) r in
  match err with
  | Some e => (Some (Wrapf "failed to read config file" e), r1)
  | None =>
  match json_Unmarshal configContent with
  | inl e => (Some (Wrapf "failed to parse config JSON" e), r1)
  | inr config =>
  match Routing config with
  | None => (Some (Errorf "no routing configuration found"), r1)
  | Some routing =>
  if Nat.eqb (length (Rules routing)) 0
  then (Some (Errorf "no routing rules found"), r1)
  else
  let lastRuleIndex := length (Rules routing) - 1 in
  match Rules routing !! lastRuleIndex with
  | None => (Some (Errorf "panic: runtime error: index out of range"), r1)
  | Some lastRule =>
  if negb (isTargetRule lastRule)
  then (Some (Errorf "last rule is not the expected default routing rule"), r1)
  else
  match json_MarshalIndent (updateRule routing lastRuleIndex lastRule outboundTag) with
  | inl e => (Some (Wrapf "failed to marshal updated config" e), r1)
  | inr updatedContent =>
  let '(err, r2) := WriteFile (configPath vm) updatedContent r1 in
  match err with
  | Some e => (Some (Wrapf "failed to write updated config" e), r2)
  | None =>
  let '(_, r3) := restartXrayService r2 in
  (None, r3)
  end end end end end end.

Definition EnableVPN {any} {J : JSON any} (vm : VPNManager) (r : Remote)
  : option error * Remote :=
  setOutboundTag vm "vless-reality" r.

Definition DisableVPN {any} {J : JSON any} (vm : VPNManager) (r : Remote)
  : option error * Remote :=
  setOutboundTag vm "direct" r.

(** [ValidateConfiguration]: the loop breaks at the first target rule. *)
Definition ValidateConfiguration {any} {J : JSON any} (vm : VPNManager) (r : Remote)
  : option error * Remote :=
  let '(configContent, err, r1) := ReadFile (configPath vm) r in
  match err with
  | Some e => (Some (Wrapf "failed to read config file" e), r1)
  | None =>
      match json_Unmarshal configContent with
      | inl e => (Some (Wrapf "invalid JSON configuration" e), r1)
      | inr config =>
          match Routing config with
          | None => (Some (Errorf "no routing configuration found"), r1)
          | Some routing =>
              let targetRuleFound := existsb isTargetRule (Rules routing) in
              if negb targetRuleFound
              then (Some (Errorf "target routing rule not found"), r1)
              else (None, r1)
          end
      end
  end.

Definition StartVPNService (r : Remote) : option error * Remote := StartService r.
Definition StopVPNService (r : Remote) : option error * Remote := StopService r.
Definition GetVPNServiceStatus (r : Remote) : string * option error * Remote :=
  GetServiceStatus r.

(** ** telegram_bot.go: the authorization cache *)

(** [authorizedUsers map[int64]VPNStatus]; each operation runs under
    [userMutex], so it is one atomic step on the map. *)
Abbreviation UserCache := (gmap Z VPNStatus).

Definition authorizeUser (userID : Z) (initialStatus : VPNStatus)
    (authorizedUsers : UserCache) : UserCache :=
  <[userID := initialStatus]> authorizedUsers.

Definition isUserAuthorized (userID : Z) (authorizedUsers : UserCache) : bool :=
  match authorizedUsers !! userID with
  | Some _ => true
  | None => false
  end.

Definition getCachedStatus (userID : Z) (authorizedUsers : UserCache) : VPNStatus :=
  match authorizedUsers !! userID with
  | Some status => status
  | None => VPNStatusUnknown
  end.

Definition updateCachedStatus (userID : Z) (status : VPNStatus)
    (authorizedUsers : UserCache) : UserCache :=
  match authorizedUsers !! userID with
  | Some _ => <[userID := status]> authorizedUsers
  | None => authorizedUsers
  end.

(** The four operations the bot performs on the cache. *)
Inductive CacheOp : Type :=
| OpAuthorize (userID : Z) (initialStatus : VPNStatus)
| OpIsAuthorized (userID : Z)
| OpGetCached (userID : Z)
| OpUpdateCached (userID : Z) (status : VPNStatus).

Definition runCacheOp (authorizedUsers : UserCache) (op : CacheOp) : UserCache :=
  match op with
  | OpAuthorize userID initialStatus =>
      authorizeUser userID initialStatus authorizedUsers
  | OpIsAuthorized _ => authorizedUsers
  | OpGetCached _ => authorizedUsers
  | OpUpdateCached userID status => updateCachedStatus userID status authorizedUsers
  end.

Definition runCacheOps (ops : list CacheOp) (authorizedUsers : UserCache) : UserCache :=
  fold_left runCacheOp ops authorizedUsers.

(** ** telegram_bot.go: handleServiceStatus *)

(** The cleaning of the status text: the ANSI colour sequences go, with and
    without their escape byte, then the surrounding white space. *)
Definition cleanStatusText (status : string) : string :=
  let cleanStatus := ReplaceAll status (String ESC "[31m") "" in
  let cleanStatus := ReplaceAll cleanStatus (String ESC "[0m") "" in
  let cleanStatus := ReplaceAll cleanStatus "[31m" "" in
  let cleanStatus := ReplaceAll cleanStatus "[0m" "" in
  TrimSpace cleanStatus.

(** The three outcomes of the status decision. *)
Inductive ServiceDecision : Type :=
| NotRunning
| Running
| StatusUnknown.

Definition decideServiceStatus (cleanStatus : string) : ServiceDecision :=
  if Contains cleanStatus "не запущен" then NotRunning
  else if Contains cleanStatus "запущен" || negb (String.eqb cleanStatus "")
  then Running
  else StatusUnknown.

(** The text of the reply; [checkedAt] is [message.Time().Format("15:04")]. *)
Definition serviceStatusText (decision : ServiceDecision) (checkedAt : string) : string :=
  match decision with
  | NotRunning =>
      "🔴 **VPN SERVICE STOPPED**" +:+ String LF "↳ Daemon is not running"
      +:+ String LF "🔋 Checked at " +:+ checkedAt
  | Running =>
      "🟢 **VPN SERVICE RUNNING**" +:+ String LF "↳ Daemon is active and ready"
      +:+ String LF "🔋 Checked at " +:+ checkedAt
  | StatusUnknown => "🟡 **VPN SERVICE STATUS UNKNOWN** • " +:+ checkedAt
  end.

(** [handleServiceStatus]: the final text of the progressive message. *)
Definition handleServiceStatus (checkedAt : string) (r : Remote) : string * Remote :=
  let '(status, err, r1) := GetVPNServiceStatus r in
  match err with
  | Some _ => ("❌ Service status check failed", r1)
  | None =>
      (serviceStatusText (decideServiceStatus (cleanStatusText status)) checkedAt, r1)
  end.

(** The status decision on the raw output of [xkeen -status]. *)
Definition classifyServiceOutput (output : string) : ServiceDecision :=
  decideServiceStatus (cleanStatusText (cleanStatusOutput output)).

(** ** Vocabulary of the statements *)

(** The document an operation works on: what reading [configPath] and parsing
    the text gives, when both succeed. *)
Definition readConfig {any} {J : JSON any} (vm : VPNManager) (r : Remote)
  : option (XrayConfig any) :=
  let '(configContent, err, _) := ReadFile (configPath vm) r in
  match err with
  | Some _ => None
  | None =>
      match json_Unmarshal configContent with
      | inl _ => None
      | inr config => Some config
      end
  end.

(** The text [json_MarshalIndent] gives for [config] parses back to [config]. *)
Definition roundTrips {any} {J : JSON any} (config : XrayConfig any) : Prop :=
  forall content, json_MarshalIndent config = inr content ->
                  json_Unmarshal content = inr config.

(** Two rules agree on every field but [outboundTag]. *)
Definition sameButOutboundTag {any} (rule rule' : Rule any) : Prop :=
  Type_ rule' = Type_ rule /\ InboundTag rule' = InboundTag rule /\
  Network rule' = Network rule /\ Domain rule' = Domain rule /\
  IP rule' = IP rule /\ Port rule' = Port rule /\ Protocol rule' = Protocol rule.

(** The events an operation started at [r] appended to reach [r']. *)
Definition eventsSince (r r' : Remote) : list (Command * bool) :=
  drop (length (history r)) (history r').

(** ** A codec to run the operations on sample documents

    The [interface{}] fields hold the raw JSON text of their value, the empty
    text when the key is absent.  [printConfig] writes a document in compact
    form, leaving out empty members as [omitempty] asks; the decoder knows the
    documents of a given table and rejects every other text. *)

Definition DQ : ascii := "034"%char.

Definition quoted (s : string) : string := String DQ (s +:+ String DQ "").

Definition member (key value : string) : string := quoted key +:+ ":" +:+ value.

Definition stringMember (key value : string) : list string :=
  if String.eqb value "" then [] else [member key (quoted value)].

Definition rawMember (key raw : string) : list string :=
  if String.eqb raw "" then [] else [member key raw].

Definition listMember (key : string) (values : list string) : list string :=
  match values with
  | [] => []
  | _ => [member key ("[" +:+ Join (map quoted values) "," +:+ "]")]
  end.

Definition printRule (rule : Rule string) : string :=
  "{" +:+ Join (stringMember "type" (Type_ rule)
                ++ listMember "inboundTag" (InboundTag rule)
                ++ stringMember "outboundTag" (OutboundTag rule)
                ++ stringMember "network" (Network rule)
                ++ rawMember "domain" (Domain rule)
                ++ rawMember "ip" (IP rule)
                ++ stringMember "port" (Port rule)
                ++ rawMember "protocol" (Protocol rule)) "," +:+ "}".

Definition printRouting (routing : RoutingConfig string) : string :=
  "{" +:+ Join (stringMember "domainStrategy" (DomainStrategy routing)
                ++ match Rules routing with
                   | [] => []
                   | rules => [member "rules" ("[" +:+ Join (map printRule rules) "," +:+ "]")]
                   end) "," +:+ "}".

Definition printConfig (config : XrayConfig string) : string :=
  "{" +:+ Join (match Routing config with
                | None => []
                | Some routing => [member "routing" (printRouting routing)]
                end) "," +:+ "}".

Definition tableJSON (docs : list (XrayConfig string)) : JSON string :=
  {| json_Unmarshal content :=
       match List.find (fun config => String.eqb (printConfig config) content) docs with
       | Some config => inr config
       | None => inl (Errorf "invalid character looking for beginning of value")
       end;
     json_MarshalIndent config := inr (printConfig config) |}.

(** Sample rules and documents. *)
Definition defaultRule (outboundTag : string) : Rule string :=
  mkRule "field" ["redirect"; "tproxy"] outboundTag "tcp,udp" "" "" "" "".

Definition adsRule : Rule string :=
  mkRule "field" ["redirect"; "tproxy"] "block" ""
         ("[" +:+ quoted "ext:geosite_v2fly.dat:category-ads-all" +:+ "]") "" "" "".

Definition lanRule : Rule string :=
  mkRule "field" ["redirect"] "direct" "tcp" "" ("[" +:+ quoted "192.168.0.0/16" +:+ "]") "" "".

Definition taggedRule : Rule string :=
  mkRule "field" ["redirect"; "tproxy"; "socks"] "direct" "tcp,udp" "" "" "" "".

Definition docOf (rules : list (Rule string)) : XrayConfig string :=
  mkXrayConfig (Some (mkRoutingConfig "IPIfNonMatch" rules)).

Definition sampleDocs : list (XrayConfig string) :=
  [ docOf [adsRule; defaultRule "direct"];
    docOf [adsRule; defaultRule "vless-reality"];
    docOf [adsRule; defaultRule "warp"];
    docOf [adsRule];
    docOf [defaultRule "direct"; lanRule];
    docOf [defaultRule "block"; defaultRule "direct"];
    docOf [defaultRule "block"; defaultRule "vless-reality"];
    mkXrayConfig None ].

Definition sampleJSON : JSON string := tableJSON sampleDocs.

(** A router whose configuration file holds [config] and whose coming
    commands meet the listed transport faults. *)
Definition routerWith (config : XrayConfig string) (faults : list (option error)) : Remote :=
  {| files := {[ configPath NewVPNManager := printConfig config ]};
     clock := "20240101-120000";
     statusOutput := "";
     faults := faults;
     history := [] |}.

Definition connectionLost : error :=
  Wrapf "failed to create SSH session" (Errorf "EOF").

(** ** main.go: the environment check *)

(** The process environment; [os.Getenv] gives the empty string for a
    variable that is not set. *)
Definition Getenv (env : gmap string string) (key : string) : string :=
  default "" (env !! key).

(** The list [requiredEnvVars] of [main]. *)
Definition requiredEnvVars : list string :=
  ["TELEGRAM_BOT_TOKEN"; "AUTH_CODE"; "ROUTER_HOST"; "ROUTER_USERNAME"; "ROUTER_PASSWORD"].

(** The validation loop of [main]: the variable [logger.Fatalf] names, if any. *)
Fixpoint missingEnvVar (env : gmap string string) (vars : list string) : option string :=
  match vars with
  | [] => None
  | envVar :: rest =>
      if String.eqb (Getenv env envVar) "" then Some envVar
      else missingEnvVar env rest
  end.

(** The list [requiredVars] of [runHealthCheck]. *)
Definition requiredVars : list string :=
  ["TELEGRAM_BOT_TOKEN"; "AUTH_CODE"; "ROUTER_HOST"; "ROUTER_USERNAME"; "ROUTER_PASSWORD"].

Fixpoint healthCheckLoop (env : gmap string string) (vars : list string) : Z :=
  match vars with
  | [] => 0
  | envVar :: rest =>
      if String.eqb (Getenv env envVar) "" then 1
      else healthCheckLoop env rest
  end.

(** [runHealthCheck]: the exit status. *)
Definition runHealthCheck (env : gmap string string) : Z :=
  healthCheckLoop env requiredVars.

(** ** ssh_client.go: the client value *)

Record SSHClient : Type := mkSSHClient {
  host : string;
  username : string;
  password : string
}.

(** [NewSSHClient]. *)
Definition NewSSHClient (host username password : string) : error + SSHClient :=
  if String.eqb host "" || String.eqb username "" || String.eqb password ""
  then inl (Errorf "SSH connection parameters cannot be empty")
  else inr {| host := host; username := username; password := password |}.

(** [containsPort] and the address [Connect] dials. *)
Definition containsPort (host : string) : bool := Contains host ":".

Definition dialAddress (s : SSHClient) : string :=
  if negb (containsPort (host s)) then host s +:+ ":22" else host s.

(** ** Go's [strings.Fields] *)

(** The pieces between white-space runes, empty pieces included; [skip]
    counts the bytes of a white-space rune that are still to be passed. *)
Fixpoint spacePieces (skip : nat) (s : string) : list string :=
  match s with
  | "" => [""]
  | String c s' =>
      match skip with
      | S k => spacePieces k s'
      | O =>
          match List.find (HasPrefix s) spaceRunes with
          | Some rune => "" :: spacePieces (String.length rune - 1) s'
          | None =>
              match spacePieces 0 s' with
              | piece :: pieces => String c piece :: pieces
              | [] => [String c ""]
              end
          end
      end
  end.

(** [strings.Fields]: the maximal runs of bytes that are not white space. *)
Definition Fields (s : string) : list string :=
  List.filter (fun piece => negb (String.eqb piece "")) (spacePieces 0 s).

(** ** telegram_bot.go: messages and the chat transport *)

Definition NL : string := String LF "".

Definition CommandStart : string := "/start".
Definition CommandAuth : string := "/auth".
Definition CommandStatus : string := "🔍 Quick Status".
Definition CommandEnableVPN : string := "🔐 Route via VPN".
Definition CommandDisableVPN : string := "🔓 Route Direct".
Definition CommandStartVPN : string := "🟢 Start VPN".
Definition CommandStopVPN : string := "🔴 Stop VPN".
Definition CommandServiceStatus : string := "🔋 Service Status".
Definition CommandCancel : string := "❌ Cancel".

(** The part of [tgbotapi.Message] the bot reads; [TimeHHMM] is
    [message.Time().Format("15:04")]. *)
Record Message : Type := mkMessage {
  MessageID : Z;
  FromID : Z;
  FromUserName : string;
  ChatID : Z;
  Text : string;
  TimeHHMM : string
}.

(** A reply keyboard: rows of button labels. *)
Definition Keyboard : Type := list (list string).

(** [tgbotapi.MessageConfig]. *)
Record MessageConfig : Type := mkMessageConfig {
  msgChatID : Z;
  msgText : string;
  msgParseMode : string;
  msgReplyMarkup : option Keyboard
}.

(** [tgbotapi.NewMessage]. *)
Definition NewMessage (chatID : Z) (text : string) : MessageConfig :=
  {| msgChatID := chatID; msgText := text; msgParseMode := ""; msgReplyMarkup := None |}.

Definition withParseMode (msg : MessageConfig) (mode : string) : MessageConfig :=
  {| msgChatID := msgChatID msg; msgText := msgText msg; msgParseMode := mode;
     msgReplyMarkup := msgReplyMarkup msg |}.

Definition withReplyMarkup (msg : MessageConfig) (keyboard : Keyboard) : MessageConfig :=
  {| msgChatID := msgChatID msg; msgText := msgText msg;
     msgParseMode := msgParseMode msg; msgReplyMarkup := Some keyboard |}.

(** What the bot hands to [bot.Send]: a message, [NewDeleteMessage] or
    [NewEditMessageText] with its parse mode. *)
Inductive Chattable : Type :=
| SendText (msg : MessageConfig)
| DeleteMessage (chatID messageID : Z)
| EditMessageText (chatID messageID : Z) (text parseMode : string).

(** The Telegram side of the bot API.

    - [sendFaults]: for each of the coming calls of [bot.Send], whether it
      returns an error; an exhausted list means no error;
    - [nextMessageID]: the identifier Telegram gives the next message;
    - [sent]: the calls made so far, oldest first, each with whether it
      returned without error. *)
Record Telegram : Type := mkTelegram {
  sendFaults : list bool;
  nextMessageID : Z;
  sent : list (Chattable * bool)
}.

(** [bot.Send]: the [MessageID] of the returned message, whether the call
    returned without error, and the state it leaves. *)
Definition Send (c : Chattable) (t : Telegram) : Z * bool * Telegram :=
  match head (sendFaults t) with
  | Some true =>
      (0, false,
       {| sendFaults := tail (sendFaults t);
          nextMessageID := nextMessageID t;
          sent := sent t ++ [(c, false)] |})
  | _ =>
      match c with
      | SendText _ =>
          (nextMessageID t, true,
           {| sendFaults := tail (sendFaults t);
              nextMessageID := nextMessageID t + 1;
              sent := sent t ++ [(c, true)] |})
      | DeleteMessage _ _ =>
          (0, true,
           {| sendFaults := tail (sendFaults t);
              nextMessageID := nextMessageID t;
              sent := sent t ++ [(c, true)] |})
      | EditMessageText _ messageID _ _ =>
          (messageID, true,
           {| sendFaults := tail (sendFaults t);
              nextMessageID := nextMessageID t;
              sent := sent t ++ [(c, true)] |})
      end
  end%Z.

(** [type TelegramBot struct], without the API handle and the logger. *)
Record TelegramBot : Type := mkTelegramBot {
  authCode : string;
  vpnManager : VPNManager;
  authorizedUsers : gmap Z VPNStatus;
  lastMessages : gmap Z Z;
  lastMsgType : gmap Z string;
  lastUserMsg : gmap Z Z
}.

(** [NewTelegramBot] once the API handle exists. *)
Definition NewTelegramBot (authCode : string) (vpnManager : VPNManager) : TelegramBot :=
  {| authCode := authCode; vpnManager := vpnManager; authorizedUsers := ∅;
     lastMessages := ∅; lastMsgType := ∅; lastUserMsg := ∅ |}.

(** Everything a handler can touch: the bot, the router behind the manager's
    SSH client, and Telegram. *)
Record World : Type := mkWorld {
  bot : TelegramBot;
  router : Remote;
  telegram : Telegram
}.

Definition setBot (w : World) (b : TelegramBot) : World :=
  {| bot := b; router := router w; telegram := telegram w |}.

Definition setRouter (w : World) (r : Remote) : World :=
  {| bot := bot w; router := r; telegram := telegram w |}.

Definition setTelegram (w : World) (t : Telegram) : World :=
  {| bot := bot w; router := router w; telegram := t |}.

Definition setAuthorizedUsers (b : TelegramBot) (users : gmap Z VPNStatus) : TelegramBot :=
  {| authCode := authCode b; vpnManager := vpnManager b; authorizedUsers := users;
     lastMessages := lastMessages b; lastMsgType := lastMsgType b;
     lastUserMsg := lastUserMsg b |}.

(** [tb.lastMessages[chatID] = messageID]. *)
Definition setLastMessage (b : TelegramBot) (chatID messageID : Z) : TelegramBot :=
  {| authCode := authCode b; vpnManager := vpnManager b;
     authorizedUsers := authorizedUsers b;
     lastMessages := <[chatID := messageID]> (lastMessages b);
     lastMsgType := lastMsgType b; lastUserMsg := lastUserMsg b |}.

(** [tb.lastMsgType[chatID] = msgType]. *)
Definition setLastMsgType (b : TelegramBot) (chatID : Z) (msgType : string) : TelegramBot :=
  {| authCode := authCode b; vpnManager := vpnManager b;
     authorizedUsers := authorizedUsers b;
     lastMessages := lastMessages b;
     lastMsgType := <[chatID := msgType]> (lastMsgType b);
     lastUserMsg := lastUserMsg b |}.

(** [tb.bot.Send]. *)
Definition botSend (c : Chattable) (w : World) : Z * bool * World :=
  let '(messageID, ok, t) := Send c (telegram w) in
  (messageID, ok, setTelegram w t).

(** [createMainKeyboard]. *)
Definition createMainKeyboard : Keyboard :=
  [ [CommandStatus; CommandServiceStatus];
    [CommandEnableVPN; CommandDisableVPN];
    [CommandStartVPN; CommandStopVPN] ].

(** The loop of [sendMessage]; [attempts] is how many attempts are left. *)
Fixpoint sendMessageLoop (attempts : nat) (msg : MessageConfig) (w : World) : World :=
  match attempts with
  | O => w
  | S rest =>
      let '(messageID, ok, w1) := botSend (SendText msg) w in
      if ok then setBot w1 (setLastMessage (bot w1) (msgChatID msg) messageID)
      else sendMessageLoop rest msg w1
  end.

(** [sendMessage], with [maxRetries := 3]. *)
Definition sendMessage (msg : MessageConfig) (w : World) : World :=
  sendMessageLoop 3 msg w.

(** [storeUserMessageID]. *)
Definition storeUserMessageID (userID messageID : Z) (w : World) : World :=
  setBot w
    {| authCode := authCode (bot w); vpnManager := vpnManager (bot w);
       authorizedUsers := authorizedUsers (bot w);
       lastMessages := lastMessages (bot w); lastMsgType := lastMsgType (bot w);
       lastUserMsg := <[userID := messageID]> (lastUserMsg (bot w)) |}.

(** [deleteUserMessage]: the result of the call is only logged. *)
Definition deleteUserMessage (chatID messageID : Z) (w : World) : World :=
  if (0 <? messageID)%Z then snd (botSend (DeleteMessage chatID messageID) w) else w.

(** The test [exists && lastMessageID > 0 && typeExists && lastType == msgType]
    on the entries read from [lastMessages] and [lastMsgType]. *)
Definition sameTypeBefore (lastMessage : option Z) (lastType : option string)
    (msgType : string) : option Z :=
  match lastMessage, lastType with
  | Some lastMessageID, Some lastType =>
      if (0 <? lastMessageID)%Z && String.eqb lastType msgType
      then Some lastMessageID else None
  | _, _ => None
  end.

(** [sendProgressiveMessage]: the identifier of the message sent, 0 when the
    send failed. *)
Definition sendProgressiveMessage (chatID : Z) (initialText msgType : string)
    (userMsgID : Z) (w : World) : Z * World :=
  let previous :=
    sameTypeBefore (lastMessages (bot w) !! chatID) (lastMsgType (bot w) !! chatID) msgType in
  let w1 :=
    match previous with
    | Some lastMessageID => snd (botSend (DeleteMessage chatID lastMessageID) w)
    | None => w
    end in
  let w2 :=
    if (0 <? userMsgID)%Z then snd (botSend (DeleteMessage chatID userMsgID) w1) else w1 in
  let '(messageID, ok, w3) := botSend (SendText (NewMessage chatID initialText)) w2 in
  if ok
  then (messageID,
        setBot w3 (setLastMsgType (setLastMessage (bot w3) chatID messageID) chatID msgType))
  else (0%Z, w3).

(** [sendStatusMessageWithMarkdown]: the previous message of the same type is
    deleted after the new one is sent. *)
Definition sendStatusMessageWithMarkdown (chatID : Z) (text msgType : string)
    (w : World) : World :=
  let previous :=
    sameTypeBefore (lastMessages (bot w) !! chatID) (lastMsgType (bot w) !! chatID) msgType in
  let msg := withReplyMarkup (withParseMode (NewMessage chatID text) "Markdown")
               createMainKeyboard in
  let '(messageID, ok, w1) := botSend (SendText msg) w in
  if ok
  then
    let w2 := setBot w1 (setLastMsgType (setLastMessage (bot w1) chatID messageID)
                           chatID msgType) in
    match previous with
    | Some lastMessageID => snd (botSend (DeleteMessage chatID lastMessageID) w2)
    | None => w2
    end
  else w1.

(** [sendOrEditMessage]; the keyboard argument is not used. *)
Definition sendOrEditMessage (chatID : Z) (text : string) (keyboard : Keyboard)
    (w : World) : World :=
  sendStatusMessageWithMarkdown chatID text "status" w.

(** [updateProgressiveMessage]. *)
Definition updateProgressiveMessage (chatID messageID : Z) (finalText : string)
    (w : World) : World :=
  if (messageID =? 0)%Z then w
  else
    let '(_, ok, w1) := botSend (EditMessageText chatID messageID finalText "Markdown") w in
    if ok then w1
    else sendStatusMessageWithMarkdown chatID finalText "fallback" w1.

(** [sendUnauthorizedMessage]. *)
Definition unauthorizedText : string :=
  "🚫 Unauthorized access. Please authenticate first using /auth YOUR_CODE".

Definition sendUnauthorizedMessage (chatID : Z) (w : World) : World :=
  sendMessage (NewMessage chatID unauthorizedText) w.

(** ** telegram_bot.go: the handlers *)

Definition welcomeText : string :=
  Join
    [ "🚀 **VPN Commander Bot**";
      "";
      "🎯 **What this bot controls:**";
      "• 🔋 **VPN Service** - Start/stop the VPN daemon";
      "• 🔐 **Traffic Routing** - Choose VPN tunnel or direct internet";
      "";
      "🔐 **Authentication required**";
      "Send: /auth YOUR_CODE";
      "";
      "📋 **Available controls after authentication:**";
      "🔍 Quick Status - Check current traffic routing";
      "🔋 Service Status - Check if VPN daemon is running";
      "🔐 Route via VPN - Send traffic through secure tunnel";
      "🔓 Route Direct - Send traffic directly to internet";
      "🟢 Start VPN - Power on the VPN service";
      "🔴 Stop VPN - Power off the VPN service";
      "";
      "💡 **Pro tip:** Check status first, then choose your routing preference!" ]
    NL.

(** [handleStart]. *)
Definition handleStart (message : Message) (w : World) : World :=
  sendMessage (withParseMode (NewMessage (ChatID message) welcomeText) "Markdown") w.

(** The [switch] on [currentStatus] in [handleAuth]. *)
Definition authStatusText (currentStatus : VPNStatus) : string :=
  if String.eqb currentStatus VPNStatusEnabled then "🔐 Current routing: VPN TUNNEL"
  else if String.eqb currentStatus VPNStatusDisabled then "🔓 Current routing: DIRECT"
  else "❓ Current routing: UNKNOWN".

Definition authResponseText (statusText : string) : string :=
  "✅ **Authentication successful!**" +:+ NL +:+ NL +:+ statusText +:+ NL +:+ NL
  +:+ "🎛️ You now have access to VPN controls.".

(** [handleAuth]. *)
Definition handleAuth {any} {J : JSON any} (message : Message) (w : World) : World :=
  let args := Fields (Text message) in
  if negb (Nat.eqb (length args) 2)
  then sendMessage
         (NewMessage (ChatID message)
            "❌ Please provide the authentication code: /auth YOUR_CODE") w
  else
    let providedCode := nth 1 args "" in
    if String.eqb providedCode (authCode (bot w))
    then
      let '(status, err, r1) := GetStatus (vpnManager (bot w)) (router w) in
      let currentStatus := match err with Some _ => VPNStatusUnknown | None => status end in
      let w1 := setRouter w r1 in
      let w2 := setBot w1 (setAuthorizedUsers (bot w1)
                  (authorizeUser (FromID message) currentStatus (authorizedUsers (bot w1)))) in
      let responseText := authResponseText (authStatusText currentStatus) in
      sendMessage
        (withReplyMarkup (withParseMode (NewMessage (ChatID message) responseText) "Markdown")
           createMainKeyboard) w2
    else
      sendMessage
        (NewMessage (ChatID message) "❌ Invalid authentication code. Access denied.") w.

(** The [switch] on [status] in [handleStatus]. *)
Definition routingStatusText (status : VPNStatus) (checkedAt : string) : string :=
  if String.eqb status VPNStatusEnabled
  then "🔐 **VPN ROUTING ACTIVE**" +:+ NL +:+ "↳ All traffic routes through VPN tunnel"
       +:+ NL +:+ "📊 Checked at " +:+ checkedAt
  else if String.eqb status VPNStatusDisabled
  then "🔓 **DIRECT ROUTING ACTIVE**" +:+ NL +:+ "↳ Traffic goes directly to internet"
       +:+ NL +:+ "📊 Checked at " +:+ checkedAt
  else "❓ **ROUTING STATUS UNKNOWN** • " +:+ checkedAt.

(** [handleStatus]. *)
Definition handleStatus {any} {J : JSON any} (message : Message) (w : World) : World :=
  let userID := FromID message in
  let '(msgID, w1) :=
    sendProgressiveMessage (ChatID message) "🔍 Checking traffic routing status..."
      "vpn_status" (MessageID message) w in
  let cachedStatus := getCachedStatus userID (authorizedUsers (bot w1)) in
  let '(status, err, r1) := GetStatus (vpnManager (bot w1)) (router w1) in
  let w2 := setRouter w1 r1 in
  match err with
  | Some _ =>
      if negb (String.eqb cachedStatus VPNStatusUnknown)
      then updateProgressiveMessage (ChatID message) msgID
             (routingStatusText cachedStatus (TimeHHMM message)) w2
      else updateProgressiveMessage (ChatID message) msgID "❌ Status check failed" w2
  | None =>
      let w3 := setBot w2 (setAuthorizedUsers (bot w2)
                  (updateCachedStatus userID status (authorizedUsers (bot w2)))) in
      updateProgressiveMessage (ChatID message) msgID
        (routingStatusText status (TimeHHMM message)) w3
  end.

(** [handleEnableVPN]. *)
Definition handleEnableVPN {any} {J : JSON any} (message : Message) (w : World) : World :=
  let w1 := deleteUserMessage (ChatID message) (MessageID message) w in
  let '(err, r1) := EnableVPN (vpnManager (bot w1)) (router w1) in
  let w2 := setRouter w1 r1 in
  match err with
  | Some _ =>
      sendMessage
        (withReplyMarkup (NewMessage (ChatID message) "❌ Failed to enable VPN")
           createMainKeyboard) w2
  | None =>
      let w3 := setBot w2 (setAuthorizedUsers (bot w2)
                  (updateCachedStatus (FromID message) VPNStatusEnabled
                     (authorizedUsers (bot w2)))) in
      sendOrEditMessage (ChatID message)
        ("✅ **ROUTING SWITCHED TO VPN**" +:+ NL
         +:+ "🔐 Traffic now flows through secure tunnel" +:+ NL +:+ "⚡ Applied instantly")
        createMainKeyboard w3
  end.

(** [handleDisableVPN]. *)
Definition handleDisableVPN {any} {J : JSON any} (message : Message) (w : World) : World :=
  let w1 := deleteUserMessage (ChatID message) (MessageID message) w in
  let '(err, r1) := DisableVPN (vpnManager (bot w1)) (router w1) in
  let w2 := setRouter w1 r1 in
  match err with
  | Some _ =>
      sendMessage
        (withReplyMarkup (NewMessage (ChatID message) "❌ Failed to disable VPN")
           createMainKeyboard) w2
  | None =>
      let w3 := setBot w2 (setAuthorizedUsers (bot w2)
                  (updateCachedStatus (FromID message) VPNStatusDisabled
                     (authorizedUsers (bot w2)))) in
      sendOrEditMessage (ChatID message)
        ("✅ **ROUTING SWITCHED TO DIRECT**" +:+ NL
         +:+ "🔓 Traffic now goes directly to internet" +:+ NL +:+ "⚡ Applied instantly")
        createMainKeyboard w3
  end.

(** [handleStartVPN]. *)
Definition handleStartVPN (message : Message) (w : World) : World :=
  let w1 := deleteUserMessage (ChatID message) (MessageID message) w in
  let '(err, r1) := StartVPNService (router w1) in
  let w2 := setRouter w1 r1 in
  match err with
  | Some _ =>
      sendMessage
        (withReplyMarkup (NewMessage (ChatID message) "❌ Failed to start service")
           createMainKeyboard) w2
  | None =>
      sendOrEditMessage (ChatID message)
        ("✅ **VPN SERVICE STARTED**" +:+ NL +:+ "🟢 Daemon is now running and ready"
         +:+ NL +:+ "⚙️ Service initialized")
        createMainKeyboard w2
  end.

(** [handleStopVPN]. *)
Definition handleStopVPN (message : Message) (w : World) : World :=
  let w1 := deleteUserMessage (ChatID message) (MessageID message) w in
  let '(err, r1) := StopVPNService (router w1) in
  let w2 := setRouter w1 r1 in
  match err with
  | Some _ =>
      sendMessage
        (withReplyMarkup (NewMessage (ChatID message) "❌ Failed to stop service")
           createMainKeyboard) w2
  | None =>
      sendOrEditMessage (ChatID message)
        ("✅ **VPN SERVICE STOPPED**" +:+ NL +:+ "🔴 Daemon has been shut down"
         +:+ NL +:+ "⚙️ Service terminated")
        createMainKeyboard w2
  end.

(** [handleServiceStatus] with its messages: the progress message, the status
    command and the decision of [handleServiceStatus] above, and the edit. *)
Definition handleServiceStatusMessage (message : Message) (w : World) : World :=
  let '(msgID, w1) :=
    sendProgressiveMessage (ChatID message) "🔋 Checking VPN daemon status..."
      "service_status" (MessageID message) w in
  let '(responseText, r1) := handleServiceStatus (TimeHHMM message) (router w1) in
  updateProgressiveMessage (ChatID message) msgID responseText (setRouter w1 r1).

(** [handleAuthorizedCommand]. *)
Definition handleAuthorizedCommand {any} {J : JSON any} (message : Message)
    (w : World) : World :=
  let w1 := storeUserMessageID (FromID message) (MessageID message) w in
  let text := Text message in
  if String.eqb text CommandStatus then handleStatus message w1
  else if String.eqb text CommandEnableVPN then handleEnableVPN message w1
  else if String.eqb text CommandDisableVPN then handleDisableVPN message w1
  else if String.eqb text CommandStartVPN then handleStartVPN message w1
  else if String.eqb text CommandStopVPN then handleStopVPN message w1
  else if String.eqb text CommandServiceStatus then handleServiceStatusMessage message w1
  else
    let w2 := deleteUserMessage (ChatID message) (MessageID message) w1 in
    sendMessage
      (withReplyMarkup
         (NewMessage (ChatID message) "❓ Unknown command. Please use the keyboard buttons.")
         createMainKeyboard) w2.

(** [handleUpdate]; [update] is [update.Message], [None] when it is nil. *)
Definition handleUpdate {any} {J : JSON any} (update : option Message) (w : World) : World :=
  match update with
  | None => w
  | Some message =>
      let userID := FromID message in
      let text := Text message in
      if HasPrefix text CommandStart then handleStart message w
      else if HasPrefix text CommandAuth then handleAuth message w
      else if isUserAuthorized userID (authorizedUsers (bot w))
      then handleAuthorizedCommand message w
      else sendUnauthorizedMessage (ChatID message) w
  end.

(** The updates of the channel, handled one after the other. *)
Definition handleUpdates {any} {J : JSON any} (updates : list (option Message))
    (w : World) : World :=
  fold_left (fun w update => handleUpdate update w) updates w.

(** A bot started with [authCode] on a router that holds [config]. *)
Definition startWorld (authCode : string) (config : XrayConfig string)
    (faults : list (option error)) : World :=
  {| bot := NewTelegramBot authCode NewVPNManager;
     router := routerWith config faults;
     telegram := {| sendFaults := []; nextMessageID := 100; sent := [] |} |}.

(** ** Vocabulary of the statements about the bot *)

(** The calls of [bot.Send] a handler started at [w] made to reach [w']. *)
Definition sentSince (w w' : World) : list (Chattable * bool) :=
  drop (length (sent (telegram w))) (sent (telegram w')).

(** [w'] differs from [w] at most in Telegram and in the bot's record of its
    messages: the router, the authorization cache, the code and the manager
    are the same. *)
Definition onlyChats (w w' : World) : Prop :=
  router w' = router w /\
  authorizedUsers (bot w') = authorizedUsers (bot w) /\
  authCode (bot w') = authCode (bot w) /\
  vpnManager (bot w') = vpnManager (bot w).

(** The message is one that [handleUpdate] passes to [handleAuth] and that
    carries [code] as its second and last field. *)
Definition presentsCode (code : string) (message : Message) : Prop :=
  HasPrefix (Text message) CommandStart = false /\
  HasPrefix (Text message) CommandAuth = true /\
  exists first, Fields (Text message) = [first; code].

(** * Properties *)

(** ** The default-rule predicate *)

(** The four cases of [TestIsTargetRule]. *)
Example TestIsTargetRule_valid :
  isTargetRule (mkRule "" ["redirect"; "tproxy"] "" "tcp,udp" tt tt "" tt) = true.
Proof. reflexivity. Qed.

Example TestIsTargetRule_missing_redirect :
  isTargetRule (mkRule "" ["tproxy"] "" "tcp,udp" tt tt "" tt) = false.
Proof. reflexivity. Qed.

Example TestIsTargetRule_missing_tproxy :
  isTargetRule (mkRule "" ["redirect"] "" "tcp,udp" tt tt "" tt) = false.
Proof. reflexivity. Qed.

Example TestIsTargetRule_wrong_network :
  isTargetRule (mkRule "" ["redirect"; "tproxy"] "" "tcp" tt tt "" tt) = false.
Proof. reflexivity. Qed.

Lemma scanTag_redirect (tags : list string) (flags : bool * bool) :
  fst (fold_left scanTag tags flags) = true <->
  fst flags = true \/ "redirect" ∈ tags.
Proof.
  revert flags. induction tags as [|tag tags IH]; intros flags; simpl.
  - split; [auto | intros [H | H]; [done | by apply not_elem_of_nil in H]].
  - rewrite IH, elem_of_cons. unfold scanTag.
    destruct (String.eqb_spec tag "redirect") as [-> | Hne]; simpl.
    + intuition congruence.
    + destruct (String.eqb tag "tproxy"); simpl; intuition congruence.
Qed.

Lemma scanTag_tproxy (tags : list string) (flags : bool * bool) :
  snd (fold_left scanTag tags flags) = true <->
  snd flags = true \/ "tproxy" ∈ tags.
Proof.
  revert flags. induction tags as [|tag tags IH]; intros flags; simpl.
  - split; [auto | intros [H | H]; [done | by apply not_elem_of_nil in H]].
  - rewrite IH, elem_of_cons. unfold scanTag.
    destruct (String.eqb_spec tag "redirect") as [-> | Hne]; simpl.
    + split; [intros [H | H]; auto | intros [H | [H | H]]; auto; discriminate].
    + destruct (String.eqb_spec tag "tproxy") as [-> | Hne']; simpl; intuition congruence.
Qed.

(** C1, as the code has it: [isTargetRule] holds exactly when the inbound-tag
    list contains both "redirect" and "tproxy" (further tags are allowed) and
    the network string is the literal "tcp,udp". *)
Theorem isTargetRule_iff_contains_both {any} (rule : Rule any) :
  isTargetRule rule = true <->
  "redirect" ∈ InboundTag rule /\ "tproxy" ∈ InboundTag rule /\
  Network rule = "tcp,udp".
Proof.
  unfold isTargetRule; cbv zeta.
  rewrite !andb_true_iff, scanTag_redirect, scanTag_tproxy, String.eqb_eq.
  simpl. intuition congruence.
Qed.

(** C1 as stated fails: a rule tagged redirect, tproxy and socks on "tcp,udp"
    is accepted although its tag set is not exactly {redirect, tproxy}. *)
Lemma isTargetRule_accepts_extra_tag :
  ~ (isTargetRule taggedRule = true <->
     list_to_set (InboundTag taggedRule) = ({["redirect"; "tproxy"]} : gset string)
     /\ Network taggedRule = "tcp,udp").
Proof.
  intros [Hsound _]. destruct (Hsound eq_refl) as [Hset _].
  assert (Hin : "socks" ∈ (list_to_set (InboundTag taggedRule) : gset string))
    by (simpl; set_solver).
  rewrite Hset in Hin. set_solver.
Qed.

(** ** The authorization cache *)

Lemma isUserAuthorized_authorizeUser (U U' : Z) (S : VPNStatus) (m : UserCache) :
  isUserAuthorized U m = true -> isUserAuthorized U (authorizeUser U' S m) = true.
Proof.
  unfold isUserAuthorized, authorizeUser. intros H.
  destruct (decide (U' = U)) as [-> | Hne].
  - by rewrite lookup_insert_eq.
  - by rewrite lookup_insert_ne.
Qed.

Lemma isUserAuthorized_updateCachedStatus (U U' : Z) (S : VPNStatus) (m : UserCache) :
  isUserAuthorized U (updateCachedStatus U' S m) = isUserAuthorized U m.
Proof.
  unfold isUserAuthorized, updateCachedStatus.
  destruct (m !! U') as [old|] eqn:HU'; [|done].
  destruct (decide (U' = U)) as [-> | Hne].
  - by rewrite lookup_insert_eq, HU'.
  - by rewrite lookup_insert_ne.
Qed.

Lemma runCacheOp_keeps_authorized (U : Z) (op : CacheOp) (m : UserCache) :
  isUserAuthorized U m = true -> isUserAuthorized U (runCacheOp m op) = true.
Proof.
  destruct op; simpl; auto.
  - apply isUserAuthorized_authorizeUser.
  - by rewrite isUserAuthorized_updateCachedStatus.
Qed.

Lemma runCacheOp_keeps_unauthorized (U : Z) (op : CacheOp) (m : UserCache) :
  (forall S, op <> OpAuthorize U S) ->
  isUserAuthorized U m = false -> isUserAuthorized U (runCacheOp m op) = false.
Proof.
  intros Hop Hm. destruct op as [U' S| | |U' S]; simpl; auto.
  - unfold isUserAuthorized, authorizeUser in *.
    rewrite lookup_insert_ne; [done | intros ->; by apply (Hop S)].
  - by rewrite isUserAuthorized_updateCachedStatus.
Qed.

Lemma never_authorized_absent (U : Z) (ops : list CacheOp) (m : UserCache) :
  (forall S, OpAuthorize U S ∉ ops) ->
  isUserAuthorized U m = false ->
  isUserAuthorized U (runCacheOps ops m) = false.
Proof.
  unfold runCacheOps. revert m.
  induction ops as [|op ops IH]; intros m Hops Hm; simpl; [done|].
  apply IH.
  - intros S HS. apply (Hops S). apply elem_of_cons. by right.
  - apply runCacheOp_keeps_unauthorized; [|done].
    intros S ->. apply (Hops S). apply elem_of_cons. by left.
Qed.

(** C8: after [authorizeUser U S] the cached status of [U] is [S]; and for a
    user [U'] that no operation since the empty cache of [NewTelegramBot] has
    authorized, [updateCachedStatus U' S'] leaves the cache as it is, [U'] is
    still not authorized and its cached status reads "unknown". *)
Theorem cache_authorize_then_get_and_update_noop
    (ops : list CacheOp) (U U' : Z) (S S' : VPNStatus) :
  let m := runCacheOps ops ∅ in
  getCachedStatus U (authorizeUser U S m) = S /\
  ((forall S0, OpAuthorize U' S0 ∉ ops) ->
   updateCachedStatus U' S' m = m /\
   isUserAuthorized U' (updateCachedStatus U' S' m) = false /\
   getCachedStatus U' (updateCachedStatus U' S' m) = VPNStatusUnknown).
Proof.
  intros m. split.
  - unfold getCachedStatus, authorizeUser. by rewrite lookup_insert_eq.
  - intros Hnever.
    assert (Habsent : isUserAuthorized U' m = false).
    { apply never_authorized_absent; [done|].
      unfold isUserAuthorized. by rewrite lookup_empty. }
    unfold isUserAuthorized in Habsent.
    unfold updateCachedStatus, isUserAuthorized, getCachedStatus.
    destruct (m !! U') eqn:HU'; [discriminate|].
    by rewrite HU'.
Qed.

(** The second part of C8 has the hypothesis that [U'] was never authorized:
    here user 7 after user 42 was authorized and updated. *)
Lemma cache_authorize_then_get_and_update_noop_witness :
  let ops := [OpAuthorize 42 VPNStatusDisabled; OpUpdateCached 42 VPNStatusEnabled;
              OpUpdateCached 7 VPNStatusEnabled; OpGetCached 7] in
  let m := runCacheOps ops ∅ in
  (forall S0, OpAuthorize 7 S0 ∉ ops) /\
  getCachedStatus 42 (authorizeUser 42 VPNStatusDisabled m) = VPNStatusDisabled /\
  updateCachedStatus 7 VPNStatusEnabled m = m /\
  isUserAuthorized 7 (updateCachedStatus 7 VPNStatusEnabled m) = false /\
  getCachedStatus 7 (updateCachedStatus 7 VPNStatusEnabled m) = VPNStatusUnknown.
Proof.
  intros ops m.
  assert (Hnever : forall S0, OpAuthorize 7 S0 ∉ ops).
  { intros S0 Hin. unfold ops in Hin.
    repeat (apply elem_of_cons in Hin as [Hin | Hin]; [discriminate|]).
    by apply not_elem_of_nil in Hin. }
  split; [exact Hnever|].
  destruct (cache_authorize_then_get_and_update_noop
              ops 42 7 VPNStatusDisabled VPNStatusEnabled) as [Hget Hupd].
  split; [exact Hget | exact (Hupd Hnever)].
Defined.

(** C9: once [isUserAuthorized U] holds it holds after any further sequence
    of cache operations, whoever they concern. *)
Theorem authorization_is_monotone (ops : list CacheOp) (U : Z) (m : UserCache) :
  isUserAuthorized U m = true ->
  isUserAuthorized U (runCacheOps ops m) = true.
Proof.
  unfold runCacheOps. revert m.
  induction ops as [|op ops IH]; intros m Hm; simpl; [done|].
  apply IH. by apply runCacheOp_keeps_authorized.
Qed.

Lemma authorization_is_monotone_witness :
  let m := authorizeUser 42 VPNStatusUnknown ∅ in
  isUserAuthorized 42 m = true /\
  isUserAuthorized 42
    (runCacheOps [OpAuthorize 7 VPNStatusEnabled; OpUpdateCached 42 VPNStatusDisabled;
                  OpUpdateCached 9 VPNStatusEnabled; OpAuthorize 42 VPNStatusEnabled;
                  OpGetCached 42; OpIsAuthorized 7] m) = true.
Proof.
  intros m.
  assert (Hm : isUserAuthorized 42 m = true) by (vm_compute; reflexivity).
  split; [exact Hm|].
  apply (authorization_is_monotone _ 42 m Hm).
Defined.

(** ** The command channel *)

Lemma runCommand_failed (cmd : Command) (r : Remote) (output : string)
    (fs : gmap string string) :
  runCommand cmd r = (output, false, fs) -> fs = files r.
Proof.
  destruct cmd; simpl; try destruct (files r !! filePath); intros [= ]; congruence.
Qed.

Lemma ExecuteCommand_inv (cmd : Command) (r r1 : Remote) (output : string)
    (err : option error) :
  ExecuteCommand cmd r = (output, err, r1) ->
  match err with
  | None => exists fs, runCommand cmd r = (output, true, fs) /\
                       r1 = stepRemote r cmd true fs
  | Some _ => r1 = stepRemote r cmd false (files r)
  end.
Proof.
  unfold ExecuteCommand. intros Hexec.
  destruct (head (faults r)) as [[e|]|];
    try (injection Hexec as <- <- <-; reflexivity);
    destruct (runCommand cmd r) as [[out ok] fs] eqn:Hrun;
    destruct ok; injection Hexec as <- <- <-; eauto;
    by rewrite (runCommand_failed _ _ _ _ Hrun).
Qed.

Lemma eventsSince_app (r r' : Remote) (events : list (Command * bool)) :
  history r' = history r ++ events -> eventsSince r r' = events.
Proof. unfold eventsSince. intros ->. apply drop_app_length. Qed.

Lemma ReadFile_inv (filePath : string) (r r1 : Remote) (content : string)
    (err : option error) :
  ReadFile filePath r = (content, err, r1) ->
  match err with
  | None => files r !! filePath = Some content /\
            r1 = stepRemote r (CmdCat filePath) true (files r)
  | Some _ => r1 = stepRemote r (CmdCat filePath) false (files r)
  end.
Proof.
  unfold ReadFile. intros Hexec. apply ExecuteCommand_inv in Hexec.
  destruct err; [done|]. destruct Hexec as (fs & Hrun & ->).
  simpl in Hrun. destruct (files r !! filePath) eqn:Hfile; [|discriminate].
  by injection Hrun as <- <-.
Qed.

Lemma WriteFile_inv (filePath content : string) (r r2 : Remote) (err : option error) :
  WriteFile filePath content r = (err, r2) ->
  exists backedUp,
    history r2 = history r ++ [(CmdBackup filePath, backedUp);
                               (CmdHeredoc filePath content, bool_decide (err = None))] /\
    (err = None -> files r2 !! filePath = Some content).
Proof.
  unfold WriteFile. intros Hwrite.
  destruct (ExecuteCommand (CmdBackup filePath) r) as [[out1 err1] r1] eqn:Hbackup.
  destruct (ExecuteCommand (CmdHeredoc filePath content) r1) as [[out2 err2] r2'] eqn:Hdoc.
  apply ExecuteCommand_inv in Hbackup, Hdoc.
  assert (Hr1 : exists backedUp, history r1 = history r ++ [(CmdBackup filePath, backedUp)]).
  { destruct err1; [subst r1; by exists false|].
    destruct Hbackup as (fs & _ & ->). by exists true. }
  destruct Hr1 as [backedUp Hr1]. exists backedUp.
  destruct err2 as [e2|]; injection Hwrite as <- <-.
  - subst r2'. simpl. rewrite Hr1, <- app_assoc. done.
  - destruct Hdoc as (fs & Hrun & ->). simpl in Hrun |- *.
    injection Hrun as Hfs. subst fs. rewrite Hr1, <- app_assoc.
    split; [done|]. intros _. apply lookup_insert_eq.
Qed.

Lemma restartXrayService_inv (r r3 : Remote) (err : option error) :
  restartXrayService r = (err, r3) ->
  files r3 = files r /\
  history r3 = history r ++ [(CmdXkeenRestart, bool_decide (err = None))].
Proof.
  unfold restartXrayService, RestartService. intros Hrestart.
  destruct (ExecuteCommand CmdXkeenRestart r) as [[out err1] r1] eqn:Hexec.
  apply ExecuteCommand_inv in Hexec.
  destruct err1 as [e|]; injection Hrestart as <- <-.
  - by subst r1.
  - destruct Hexec as (fs & Hrun & ->). simpl in Hrun |- *.
    injection Hrun as Hfs. by subst fs.
Qed.

Lemma readConfig_inv {any} {J : JSON any} (vm : VPNManager) (r : Remote)
    (config : XrayConfig any) :
  readConfig vm r = Some config ->
  exists content r1,
    ReadFile (configPath vm) r = (content, None, r1) /\
    json_Unmarshal content = inr config.
Proof.
  unfold readConfig. intros Hread.
  destruct (ReadFile (configPath vm) r) as [[content err] r1].
  destruct err; [discriminate|].
  destruct (json_Unmarshal content) as [e|config'] eqn:Hparse; [discriminate|].
  injection Hread as ->. eauto.
Qed.

Lemma last_lookup_sub1 {A} (l : list A) : l !! (length l - 1) = last l.
Proof. by rewrite last_lookup, Nat.sub_1_r. Qed.

(** ** The mutation routine *)

(** The index [len(rules) - 1] is in range once the list is known not to be
    empty, so the out-of-range branch of [setOutboundTag] is never taken. *)
Lemma lastRuleIndex_in_range {A} (rules : list A) :
  Nat.eqb (length rules) 0 = false -> is_Some (rules !! (length rules - 1)).
Proof.
  intros Hlen. apply lookup_lt_is_Some.
  destruct rules; [discriminate | simpl; lia].
Qed.

(** What a successful run of [setOutboundTag] went through. *)
Lemma setOutboundTag_ok_inv {any} {J : JSON any} (vm : VPNManager)
    (outboundTag : string) (r r' : Remote) :
  setOutboundTag vm outboundTag r = (None, r') ->
  exists config routing lastRule updatedContent backedUp restarted,
    readConfig vm r = Some config /\
    Routing config = Some routing /\
    last (Rules routing) = Some lastRule /\
    isTargetRule lastRule = true /\
    json_MarshalIndent
      (updateRule routing (length (Rules routing) - 1) lastRule outboundTag)
      = inr updatedContent /\
    files r' !! configPath vm = Some updatedContent /\
    history r' = history r ++
      [(CmdCat (configPath vm), true);
       (CmdBackup (configPath vm), backedUp);
       (CmdHeredoc (configPath vm) updatedContent, true);
       (CmdXkeenRestart, restarted)].
Proof.
  unfold setOutboundTag, readConfig. intros Hset.
  destruct (ReadFile (configPath vm) r) as [[content err] r1] eqn:Hread.
  destruct err; [discriminate|].
  apply ReadFile_inv in Hread as [_ Hr1].
  destruct (json_Unmarshal content) as [e|config]; [discriminate|].
  destruct (Routing config) as [routing|] eqn:Hrouting; [|discriminate].
  destruct (length (Rules routing) =? 0)%nat; [discriminate|].
  rewrite last_lookup_sub1 in Hset.
  destruct (last (Rules routing)) as [lastRule|] eqn:Hlast; [|discriminate].
  destruct (isTargetRule lastRule) eqn:Htarget; [|discriminate]. simpl in Hset.
  destruct (json_MarshalIndent _) as [e|updatedContent] eqn:Hmarshal; [discriminate|].
  destruct (WriteFile (configPath vm) updatedContent r1) as [err2 r2] eqn:Hwrite.
  apply WriteFile_inv in Hwrite as (backedUp & Hh2 & Hfile).
  destruct err2; [discriminate|].
  destruct (restartXrayService r2) as [err3 r3] eqn:Hrestart.
  apply restartXrayService_inv in Hrestart as [Hfiles Hh3].
  injection Hset as <-.
  exists config, routing, lastRule, updatedContent, backedUp, (bool_decide (err3 = None)).
  repeat split; try done.
  - rewrite Hfiles. by apply Hfile.
  - rewrite Hh3, Hh2, Hr1. simpl. by rewrite <- !app_assoc.
Qed.

(** A failed run sent no heredoc that succeeded. *)
Lemma setOutboundTag_err_inv {any} {J : JSON any} (vm : VPNManager)
    (outboundTag : string) (r r' : Remote) (e : error) :
  setOutboundTag vm outboundTag r = (Some e, r') ->
  forall filePath content, (CmdHeredoc filePath content, true) ∉ eventsSince r r'.
Proof.
  unfold setOutboundTag. intros Hset filePath content0.
  destruct (ReadFile (configPath vm) r) as [[content err] r1] eqn:Hread.
  apply ReadFile_inv in Hread.
  assert (Hr1 : exists ok, history r1 = history r ++ [(CmdCat (configPath vm), ok)]).
  { destruct err; [subst r1; by exists false|].
    destruct Hread as [_ ->]. by exists true. }
  destruct Hr1 as [ok Hr1].
  assert (Hstop : r' = r1 -> (CmdHeredoc filePath content0, true) ∉ eventsSince r r').
  { intros ->. rewrite (eventsSince_app _ _ _ Hr1).
    intros Hin. apply list_elem_of_singleton in Hin. discriminate. }
  destruct err; [injection Hset as <- <-; by apply Hstop|].
  destruct (json_Unmarshal content) as [e1|config];
    [injection Hset as <- <-; by apply Hstop|].
  destruct (Routing config) as [routing|];
    [|injection Hset as <- <-; by apply Hstop].
  destruct (length (Rules routing) =? 0)%nat;
    [injection Hset as <- <-; by apply Hstop|].
  destruct (Rules routing !! (length (Rules routing) - 1)) as [lastRule|];
    [|injection Hset as <- <-; by apply Hstop].
  destruct (negb (isTargetRule lastRule));
    [injection Hset as <- <-; by apply Hstop|].
  destruct (json_MarshalIndent _) as [e1|updatedContent];
    [injection Hset as <- <-; by apply Hstop|].
  destruct (WriteFile (configPath vm) updatedContent r1) as [err2 r2] eqn:Hwrite.
  apply WriteFile_inv in Hwrite as (backedUp & Hh2 & _).
  destruct err2 as [e2|].
  - injection Hset as <- <-.
    rewrite (eventsSince_app r r2
               [(CmdCat (configPath vm), ok); (CmdBackup (configPath vm), backedUp);
                (CmdHeredoc (configPath vm) updatedContent, false)]).
    + intros Hin. repeat (apply elem_of_cons in Hin as [Hin | Hin]; [discriminate|]).
      by apply not_elem_of_nil in Hin.
    + rewrite Hh2, Hr1. simpl. by rewrite <- app_assoc.
  - destruct (restartXrayService r2). discriminate.
Qed.

(** C2: when the routing section is present and its last rule is not the
    default rule, [setOutboundTag] (whatever the tag, so both [EnableVPN] and
    [DisableVPN]) returns the structural error, the only command it has sent
    is the read, and the remote files are as before; rules before the last
    play no part. *)
Theorem setOutboundTag_refuses_when_last_rule_differs {any} {J : JSON any}
    (vm : VPNManager) (outboundTag : string) (r : Remote)
    (config : XrayConfig any) (routing : RoutingConfig any) (lastRule : Rule any) :
  readConfig vm r = Some config ->
  Routing config = Some routing ->
  last (Rules routing) = Some lastRule ->
  isTargetRule lastRule = false ->
  fst (setOutboundTag vm outboundTag r)
    = Some (Errorf "last rule is not the expected default routing rule") /\
  files (snd (setOutboundTag vm outboundTag r)) = files r /\
  eventsSince r (snd (setOutboundTag vm outboundTag r))
    = [(CmdCat (configPath vm), true)].
Proof.
  intros Hread Hrouting Hlast Htarget.
  apply readConfig_inv in Hread as (content & r1 & Hread & Hparse).
  unfold setOutboundTag. rewrite Hread, Hparse, Hrouting.
  apply ReadFile_inv in Hread as [_ ->].
  assert (Hlen : (length (Rules routing) =? 0)%nat = false)
    by (destruct (Rules routing); [discriminate | reflexivity]).
  rewrite Hlen, last_lookup_sub1, Hlast, Htarget. simpl. repeat split.
  apply eventsSince_app. reflexivity.
Qed.

(** C2 at a document whose first rule is the default rule and whose last rule
    is not. *)
Lemma setOutboundTag_refuses_when_last_rule_differs_witness :
  let J := sampleJSON in
  let config := docOf [defaultRule "direct"; lanRule] in
  let r := routerWith config [] in
  isTargetRule (defaultRule "direct") = true /\
  fst (setOutboundTag NewVPNManager "vless-reality" r)
    = Some (Errorf "last rule is not the expected default routing rule") /\
  files (snd (setOutboundTag NewVPNManager "vless-reality" r)) = files r /\
  eventsSince r (snd (setOutboundTag NewVPNManager "vless-reality" r))
    = [(CmdCat (configPath NewVPNManager), true)].
Proof.
  intros J config r. split; [reflexivity|].
  apply (setOutboundTag_refuses_when_last_rule_differs
           NewVPNManager "vless-reality" r config
           (mkRoutingConfig "IPIfNonMatch" [defaultRule "direct"; lanRule]) lanRule).
  - vm_compute. reflexivity.
  - reflexivity.
  - reflexivity.
  - reflexivity.
Defined.

(** C5: when a mutation succeeds, the one text written to the configuration
    path is the serialization of a document that has the parsed document's
    [domainStrategy], as many rules, and at every position a rule that agrees
    with the parsed one on type, inboundTag, network, domain, ip, port and
    protocol; its outboundTag is the new tag at the last position and the
    parsed rule's everywhere else. *)
Theorem setOutboundTag_changes_only_last_outboundTag {any} {J : JSON any}
    (vm : VPNManager) (outboundTag : string) (r r' : Remote)
    (config : XrayConfig any) (routing : RoutingConfig any) :
  readConfig vm r = Some config ->
  Routing config = Some routing ->
  setOutboundTag vm outboundTag r = (None, r') ->
  exists (routing' : RoutingConfig any) (content : string),
    json_MarshalIndent (mkXrayConfig (Some routing')) = inr content /\
    (forall filePath content0 ok,
        (CmdHeredoc filePath content0, ok) ∈ eventsSince r r' ->
        filePath = configPath vm /\ content0 = content /\ ok = true) /\
    (CmdHeredoc (configPath vm) content, true) ∈ eventsSince r r' /\
    files r' !! configPath vm = Some content /\
    DomainStrategy routing' = DomainStrategy routing /\
    length (Rules routing') = length (Rules routing) /\
    forall (i : nat) (rule : Rule any),
      Rules routing !! i = Some rule ->
      exists rule',
        Rules routing' !! i = Some rule' /\
        sameButOutboundTag rule rule' /\
        OutboundTag rule' =
          if Nat.eqb i (length (Rules routing) - 1) then outboundTag
          else OutboundTag rule.
Proof.
  intros Hread Hrouting Hset.
  apply setOutboundTag_ok_inv in Hset
    as (config0 & routing0 & lastRule & content & backedUp & restarted
        & Hread0 & Hrouting0 & Hlast & _ & Hmarshal & Hfile & Hhist).
  rewrite Hread in Hread0. injection Hread0 as <-.
  rewrite Hrouting in Hrouting0. injection Hrouting0 as <-.
  apply eventsSince_app in Hhist.
  eexists _, content. split; [exact Hmarshal|].
  rewrite Hhist.
  split; [|split; [|split; [|split; [|split]]]].
  - intros filePath content0 ok Hin.
    repeat (apply elem_of_cons in Hin as [Hin | Hin];
            [injection Hin as ? ?; try discriminate; by subst|]).
    by apply not_elem_of_nil in Hin.
  - do 2 (apply elem_of_cons; right). apply elem_of_cons. by left.
  - exact Hfile.
  - reflexivity.
  - simpl. apply length_insert.
  - intros i rule Hi. simpl.
    destruct (Nat.eqb_spec i (length (Rules routing) - 1)) as [-> | Hne].
    + rewrite last_lookup_sub1, Hlast in Hi. injection Hi as ->.
      exists (withOutboundTag rule outboundTag). split; [|by repeat split].
      apply list_lookup_insert_eq.
      destruct (Rules routing); [discriminate | simpl; lia].
    + exists rule. split; [|by repeat split].
      by rewrite list_lookup_insert_ne.
Qed.

(** C5 at the two-rule sample document, switched to the VPN outbound. *)
Lemma setOutboundTag_changes_only_last_outboundTag_witness :
  let J := sampleJSON in
  let routing := mkRoutingConfig "IPIfNonMatch" [adsRule; defaultRule "direct"] in
  let r := routerWith (mkXrayConfig (Some routing)) [] in
  let r' := snd (setOutboundTag NewVPNManager "vless-reality" r) in
  setOutboundTag NewVPNManager "vless-reality" r = (None, r') /\
  exists (routing' : RoutingConfig string) (content : string),
    json_MarshalIndent (mkXrayConfig (Some routing')) = inr content /\
    (forall filePath content0 ok,
        (CmdHeredoc filePath content0, ok) ∈ eventsSince r r' ->
        filePath = configPath NewVPNManager /\ content0 = content /\ ok = true) /\
    (CmdHeredoc (configPath NewVPNManager) content, true) ∈ eventsSince r r' /\
    files r' !! configPath NewVPNManager = Some content /\
    DomainStrategy routing' = DomainStrategy routing /\
    length (Rules routing') = length (Rules routing) /\
    forall (i : nat) (rule : Rule string),
      Rules routing !! i = Some rule ->
      exists rule',
        Rules routing' !! i = Some rule' /\
        sameButOutboundTag rule rule' /\
        OutboundTag rule' =
          if Nat.eqb i (length (Rules routing) - 1) then "vless-reality"
          else OutboundTag rule.
Proof.
  intros J routing r r'.
  assert (Hset : setOutboundTag NewVPNManager "vless-reality" r = (None, r'))
    by (vm_compute; reflexivity).
  split; [exact Hset|].
  apply (setOutboundTag_changes_only_last_outboundTag
           NewVPNManager "vless-reality" r r' (mkXrayConfig (Some routing)) routing).
  - vm_compute. reflexivity.
  - reflexivity.
  - exact Hset.
Defined.

(** C7: a run of [setOutboundTag] whose heredoc write succeeded and whose
    restart command failed returns no error. *)
Theorem setOutboundTag_ignores_restart_failure {any} {J : JSON any}
    (vm : VPNManager) (outboundTag : string) (r : Remote) (content : string) :
  (CmdHeredoc (configPath vm) content, true)
    ∈ eventsSince r (snd (setOutboundTag vm outboundTag r)) ->
  (CmdXkeenRestart, false)
    ∈ eventsSince r (snd (setOutboundTag vm outboundTag r)) ->
  fst (setOutboundTag vm outboundTag r) = None.
Proof.
  intros Hwritten _.
  destruct (setOutboundTag vm outboundTag r) as [[e|] r'] eqn:Hset; [|done].
  exfalso. by apply (setOutboundTag_err_inv _ _ _ _ _ Hset (configPath vm) content).
Qed.

(** C7 where the session is lost after the write: the fourth command, the
    restart, fails. *)
Lemma setOutboundTag_ignores_restart_failure_witness :
  let J := sampleJSON in
  let r := routerWith (docOf [adsRule; defaultRule "direct"])
             [None; None; None; Some connectionLost] in
  let content := printConfig (docOf [adsRule; defaultRule "vless-reality"]) in
  eventsSince r (snd (EnableVPN NewVPNManager r))
    = [(CmdCat (configPath NewVPNManager), true);
       (CmdBackup (configPath NewVPNManager), true);
       (CmdHeredoc (configPath NewVPNManager) content, true);
       (CmdXkeenRestart, false)] /\
  fst (EnableVPN NewVPNManager r) = None.
Proof.
  intros J r content.
  assert (Hevents : eventsSince r (snd (setOutboundTag NewVPNManager "vless-reality" r))
                    = [(CmdCat (configPath NewVPNManager), true);
                       (CmdBackup (configPath NewVPNManager), true);
                       (CmdHeredoc (configPath NewVPNManager) content, true);
                       (CmdXkeenRestart, false)])
    by (vm_compute; reflexivity).
  split; [exact Hevents|].
  apply (setOutboundTag_ignores_restart_failure NewVPNManager "vless-reality" r content).
  - rewrite Hevents. set_solver.
  - rewrite Hevents. set_solver.
Defined.

(** ** Reading the status *)

Lemma scanStatus_find {any} (rules : list (Rule any)) :
  scanStatus rules =
  match List.find isTargetRule rules with
  | Some rule => statusOfTag (OutboundTag rule)
  | None => (VPNStatusUnknown, Some (Errorf "target routing rule not found"))
  end.
Proof.
  induction rules as [|rule rules IH]; simpl; [done|].
  by destruct (isTargetRule rule).
Qed.

Lemma GetStatus_readConfig {any} {J : JSON any} (vm : VPNManager) (r : Remote)
    (config : XrayConfig any) (routing : RoutingConfig any) :
  readConfig vm r = Some config ->
  Routing config = Some routing ->
  fst (GetStatus vm r) = scanStatus (Rules routing).
Proof.
  intros Hread Hrouting.
  apply readConfig_inv in Hread as (content & r1 & Hread & Hparse).
  unfold GetStatus. by rewrite Hread, Hparse, Hrouting.
Qed.

(** C6: with the routing section present, when the first rule in document
    order that satisfies the predicate carries an outbound tag other than
    "vless-reality" and "direct", [GetStatus] returns "unknown" and no error;
    when no rule satisfies the predicate it returns the not-found error. *)
Theorem GetStatus_unknown_tag_versus_no_rule {any} {J : JSON any}
    (vm : VPNManager) (r : Remote)
    (config : XrayConfig any) (routing : RoutingConfig any) :
  readConfig vm r = Some config ->
  Routing config = Some routing ->
  (forall rule,
      List.find isTargetRule (Rules routing) = Some rule ->
      OutboundTag rule <> "vless-reality" ->
      OutboundTag rule <> "direct" ->
      fst (GetStatus vm r) = (VPNStatusUnknown, None)) /\
  (List.find isTargetRule (Rules routing) = None ->
   fst (GetStatus vm r)
     = (VPNStatusUnknown, Some (Errorf "target routing rule not found"))).
Proof.
  intros Hread Hrouting.
  rewrite (GetStatus_readConfig vm r config routing Hread Hrouting), scanStatus_find.
  split.
  - intros rule -> Hvpn Hdirect. unfold statusOfTag.
    destruct (String.eqb_spec (OutboundTag rule) "vless-reality"); [done|].
    by destruct (String.eqb_spec (OutboundTag rule) "direct").
  - by intros ->.
Qed.

(** C6 at a document whose default rule goes to "warp", and at a document
    with no default rule. *)
Lemma GetStatus_unknown_tag_versus_no_rule_witness :
  let J := sampleJSON in
  fst (GetStatus NewVPNManager (routerWith (docOf [adsRule; defaultRule "warp"]) []))
    = (VPNStatusUnknown, None) /\
  fst (GetStatus NewVPNManager (routerWith (docOf [adsRule]) []))
    = (VPNStatusUnknown, Some (Errorf "target routing rule not found")).
Proof.
  intros J.
  destruct (GetStatus_unknown_tag_versus_no_rule
              (J := sampleJSON) NewVPNManager
              (routerWith (docOf [adsRule; defaultRule "warp"]) [])
              (docOf [adsRule; defaultRule "warp"])
              (mkRoutingConfig "IPIfNonMatch" [adsRule; defaultRule "warp"]))
    as [Hunknown _]; [vm_compute; reflexivity | reflexivity |].
  destruct (GetStatus_unknown_tag_versus_no_rule
              (J := sampleJSON) NewVPNManager
              (routerWith (docOf [adsRule]) [])
              (docOf [adsRule])
              (mkRoutingConfig "IPIfNonMatch" [adsRule]))
    as [_ Hmissing]; [vm_compute; reflexivity | reflexivity |].
  split.
  - apply (Hunknown (defaultRule "warp")); [reflexivity | discriminate | discriminate].
  - apply Hmissing. reflexivity.
Defined.

(** ** Validation *)

(** C4, as the code has it: on a document that is read and parsed,
    [ValidateConfiguration] succeeds exactly when the routing section exists
    and at least one rule satisfies the predicate; it changes no remote file. *)
Theorem ValidateConfiguration_iff_some_default_rule {any} {J : JSON any}
    (vm : VPNManager) (r : Remote) (config : XrayConfig any) :
  readConfig vm r = Some config ->
  (fst (ValidateConfiguration vm r) = None <->
   exists routing, Routing config = Some routing /\
     exists rule, rule ∈ Rules routing /\ isTargetRule rule = true) /\
  files (snd (ValidateConfiguration vm r)) = files r.
Proof.
  intros Hread.
  apply readConfig_inv in Hread as (content & r1 & Hread & Hparse).
  unfold ValidateConfiguration. rewrite Hread, Hparse.
  apply ReadFile_inv in Hread as [_ ->].
  destruct (Routing config) as [routing|]; simpl.
  - split; [|by destruct (existsb isTargetRule (Rules routing))].
    destruct (existsb isTargetRule (Rules routing)) eqn:Hfound; simpl.
    + split; [intros _|done]. exists routing. split; [done|].
      apply existsb_exists in Hfound as (rule & Hin & Htarget).
      exists rule. by rewrite list_elem_of_In.
    + split; [discriminate|]. intros (routing0 & [= <-] & rule & Hin & Htarget).
      assert (existsb isTargetRule (Rules routing) = true); [|congruence].
      apply existsb_exists. exists rule. by rewrite <- list_elem_of_In.
  - split; [|done]. split; [discriminate|]. by intros (routing & Hrouting & _).
Qed.

(** C4 at a document with two default rules: validation succeeds. *)
Lemma ValidateConfiguration_iff_some_default_rule_witness :
  let J := sampleJSON in
  let config := docOf [defaultRule "block"; defaultRule "direct"] in
  let r := routerWith config [] in
  readConfig NewVPNManager r = Some config /\
  fst (ValidateConfiguration NewVPNManager r) = None /\
  files (snd (ValidateConfiguration NewVPNManager r)) = files r.
Proof.
  intros J config r.
  assert (Hread : readConfig NewVPNManager r = Some config) by (vm_compute; reflexivity).
  split; [exact Hread|].
  destruct (ValidateConfiguration_iff_some_default_rule NewVPNManager r config Hread)
    as [[_ Hvalid] Hfiles].
  split; [|exact Hfiles].
  apply Hvalid. eexists. split; [reflexivity|].
  exists (defaultRule "block"). split; [|reflexivity].
  apply elem_of_cons. by left.
Defined.

(** C4 as stated fails: on a document with two default rules validation
    succeeds, although the number of rules that satisfy the predicate is not
    one. *)
Lemma ValidateConfiguration_accepts_two_default_rules :
  let J := sampleJSON in
  let config := docOf [defaultRule "block"; defaultRule "direct"] in
  let r := routerWith config [] in
  readConfig NewVPNManager r = Some config /\
  ~ (fst (ValidateConfiguration NewVPNManager r) = None <->
     exists routing, Routing config = Some routing /\
       length (List.filter isTargetRule (Rules routing)) = 1).
Proof.
  intros J config r. split; [vm_compute; reflexivity|].
  intros [Honly _].
  assert (Hvalid : fst (ValidateConfiguration NewVPNManager r) = None)
    by (vm_compute; reflexivity).
  destruct (Honly Hvalid) as (routing & [= <-] & Hcount).
  vm_compute in Hcount. discriminate.
Qed.

(** ** Mutation followed by a status read *)

Lemma scanStatus_skip {any} (earlier rest : list (Rule any)) :
  Forall (fun rule => isTargetRule rule = false) earlier ->
  scanStatus (earlier ++ rest) = scanStatus rest.
Proof.
  induction 1 as [|rule earlier Hrule _ IH]; simpl; [done|].
  by rewrite Hrule.
Qed.

Lemma isTargetRule_withOutboundTag {any} (rule : Rule any) (tag : string) :
  isTargetRule (withOutboundTag rule tag) = isTargetRule rule.
Proof. reflexivity. Qed.

Lemma insert_last {A} (earlier : list A) (x y : A) :
  <[length (earlier ++ [x]) - 1 := y]> (earlier ++ [x]) = earlier ++ [y].
Proof.
  rewrite length_app. simpl.
  replace (length earlier + 1 - 1) with (length earlier) by lia.
  rewrite insert_app_r_alt by lia.
  by replace (length earlier - length earlier) with 0 by lia.
Qed.

Lemma setOutboundTag_then_GetStatus {any} {J : JSON any}
    (vm : VPNManager) (outboundTag : string) (r r' : Remote)
    (config : XrayConfig any) (routing : RoutingConfig any)
    (earlier : list (Rule any)) (lastRule : Rule any) :
  readConfig vm r = Some config ->
  Routing config = Some routing ->
  Rules routing = earlier ++ [lastRule] ->
  Forall (fun rule => isTargetRule rule = false) earlier ->
  setOutboundTag vm outboundTag r = (None, r') ->
  roundTrips (updateRule routing (length (Rules routing) - 1) lastRule outboundTag) ->
  snd (fst (ReadFile (configPath vm) r')) = None ->
  fst (GetStatus vm r') = statusOfTag outboundTag.
Proof.
  intros Hread Hrouting Hrules Hearlier Hset Hround Hreread.
  apply setOutboundTag_ok_inv in Hset
    as (config0 & routing0 & lastRule0 & content & backedUp & restarted
        & Hread0 & Hrouting0 & Hlast & Htarget & Hmarshal & Hfile & _).
  rewrite Hread in Hread0. injection Hread0 as <-.
  rewrite Hrouting in Hrouting0. injection Hrouting0 as <-.
  rewrite Hrules, last_snoc in Hlast. injection Hlast as <-.
  unfold GetStatus.
  destruct (ReadFile (configPath vm) r') as [[content' err'] r''] eqn:Hcat.
  simpl in Hreread. subst err'.
  apply ReadFile_inv in Hcat as [Hfile' _].
  rewrite Hfile in Hfile'. injection Hfile' as <-.
  rewrite (Hround content Hmarshal). simpl.
  rewrite Hrules, insert_last, scanStatus_skip by done. simpl.
  by rewrite isTargetRule_withOutboundTag, Htarget.
Qed.

(** C3, as the code has it: when no rule before the last satisfies the
    predicate, a successful [EnableVPN] followed by [GetStatus] gives
    "enabled" and a successful [DisableVPN] followed by [GetStatus] gives
    "disabled", provided the read after the mutation succeeds and the text
    written parses back to the document that was serialized. *)
Theorem mutation_then_GetStatus_round_trip {any} {J : JSON any}
    (vm : VPNManager) (r r' : Remote)
    (config : XrayConfig any) (routing : RoutingConfig any)
    (earlier : list (Rule any)) (lastRule : Rule any) :
  readConfig vm r = Some config ->
  Routing config = Some routing ->
  Rules routing = earlier ++ [lastRule] ->
  Forall (fun rule => isTargetRule rule = false) earlier ->
  snd (fst (ReadFile (configPath vm) r')) = None ->
  (EnableVPN vm r = (None, r') ->
   roundTrips (updateRule routing (length (Rules routing) - 1) lastRule "vless-reality") ->
   fst (GetStatus vm r') = (VPNStatusEnabled, None)) /\
  (DisableVPN vm r = (None, r') ->
   roundTrips (updateRule routing (length (Rules routing) - 1) lastRule "direct") ->
   fst (GetStatus vm r') = (VPNStatusDisabled, None)).
Proof.
  intros Hread Hrouting Hrules Hearlier Hreread. split; intros Hset Hround.
  - apply (setOutboundTag_then_GetStatus vm "vless-reality" r r' config routing
             earlier lastRule); assumption.
  - apply (setOutboundTag_then_GetStatus vm "direct" r r' config routing
             earlier lastRule); assumption.
Qed.

(** C3 at the sample document, whose only default rule is the last one:
    first switched to the VPN, and from there back to direct. *)
Lemma mutation_then_GetStatus_round_trip_witness :
  let J := sampleJSON in
  let r := routerWith (docOf [adsRule; defaultRule "direct"]) [] in
  let r1 := snd (EnableVPN NewVPNManager r) in
  let r2 := snd (DisableVPN NewVPNManager r1) in
  EnableVPN NewVPNManager r = (None, r1) /\
  fst (GetStatus NewVPNManager r1) = (VPNStatusEnabled, None) /\
  DisableVPN NewVPNManager r1 = (None, r2) /\
  fst (GetStatus NewVPNManager r2) = (VPNStatusDisabled, None).
Proof.
  intros J r r1 r2.
  assert (Henable : EnableVPN NewVPNManager r = (None, r1)) by (vm_compute; reflexivity).
  assert (Hdisable : DisableVPN NewVPNManager r1 = (None, r2)) by (vm_compute; reflexivity).
  assert (Hearlier : Forall (fun rule : Rule string => isTargetRule rule = false) [adsRule])
    by (repeat constructor).
  split; [exact Henable|]. split; [|split; [exact Hdisable|]].
  - apply (proj1 (mutation_then_GetStatus_round_trip
                    (J := sampleJSON) NewVPNManager r r1
                    (docOf [adsRule; defaultRule "direct"])
                    (mkRoutingConfig "IPIfNonMatch" [adsRule; defaultRule "direct"])
                    [adsRule] (defaultRule "direct")
                    ltac:(vm_compute; reflexivity) eq_refl eq_refl Hearlier
                    ltac:(vm_compute; reflexivity))).
    + exact Henable.
    + intros content [= <-]. vm_compute. reflexivity.
  - apply (proj2 (mutation_then_GetStatus_round_trip
                    (J := sampleJSON) NewVPNManager r1 r2
                    (docOf [adsRule; defaultRule "vless-reality"])
                    (mkRoutingConfig "IPIfNonMatch" [adsRule; defaultRule "vless-reality"])
                    [adsRule] (defaultRule "vless-reality")
                    ltac:(vm_compute; reflexivity) eq_refl eq_refl Hearlier
                    ltac:(vm_compute; reflexivity))).
    + exact Hdisable.
    + intros content [= <-]. vm_compute. reflexivity.
Defined.

(** C3 as stated fails: on a document with a default rule to "block" before
    the last rule, [EnableVPN] succeeds, the text it wrote is read back and
    parses to the document it serialized, and yet [GetStatus] answers
    "unknown" rather than "enabled". *)
Lemma EnableVPN_then_GetStatus_unknown :
  let J := sampleJSON in
  let routing := mkRoutingConfig "IPIfNonMatch" [defaultRule "block"; defaultRule "direct"] in
  let r := routerWith (mkXrayConfig (Some routing)) [] in
  let r' := snd (EnableVPN NewVPNManager r) in
  EnableVPN NewVPNManager r = (None, r') /\
  roundTrips (updateRule routing 1 (defaultRule "direct") "vless-reality") /\
  snd (fst (ReadFile (configPath NewVPNManager) r')) = None /\
  fst (GetStatus NewVPNManager r') = (VPNStatusUnknown, None) /\
  fst (GetStatus NewVPNManager r') <> (VPNStatusEnabled, None).
Proof.
  intros J routing r r'.
  assert (Hstatus : fst (GetStatus NewVPNManager r') = (VPNStatusUnknown, None))
    by (vm_compute; reflexivity).
  split; [vm_compute; reflexivity|].
  split; [intros content [= <-]; vm_compute; reflexivity|].
  split; [vm_compute; reflexivity|].
  split; [exact Hstatus|].
  rewrite Hstatus. discriminate.
Qed.

(** The scenario of the specification: a single default rule to "direct"
    reads as disabled; [EnableVPN] rewrites the outbound tag and keeps the
    shape of the object; the status then reads as enabled. *)
Example scenario_enable :
  let J := tableJSON [docOf [defaultRule "direct"]; docOf [defaultRule "vless-reality"]] in
  let r := routerWith (docOf [defaultRule "direct"]) [] in
  fst (GetStatus NewVPNManager r) = (VPNStatusDisabled, None) /\
  fst (EnableVPN NewVPNManager r) = None /\
  files (snd (EnableVPN NewVPNManager r)) !! configPath NewVPNManager
    = Some (printConfig (docOf [defaultRule "vless-reality"])) /\
  fst (GetStatus NewVPNManager (snd (EnableVPN NewVPNManager r)))
    = (VPNStatusEnabled, None).
Proof. vm_compute. repeat split. Qed.

(** ** The service-status decision *)




(** The decision is the one [handleServiceStatus] reports when the status
    command goes through. *)
Lemma handleServiceStatus_reports_decision (checkedAt : string) (r : Remote) :
  (forall e, head (faults r) <> Some (Some e)) ->
  fst (handleServiceStatus checkedAt r)
    = serviceStatusText (classifyServiceOutput (statusOutput r)) checkedAt.
Proof.
  intros Hfine.
  unfold handleServiceStatus, GetVPNServiceStatus, GetServiceStatus, ExecuteCommand.
  destruct (head (faults r)) as [[e|]|]; [by destruct (Hfine e) | done | done].
Qed.

(** Running is the default: a text that mentions neither phrase. *)
Example classify_unrecognized_text :
  Contains (cleanStatusText (cleanStatusOutput "xray: pid 1234")) "запущен" = false /\
  classifyServiceOutput "xray: pid 1234" = Running.
Proof. vm_compute. split; reflexivity. Qed.

(** The scenario of the specification: an ANSI-coloured diagnostic line and
    the localized "not running" phrase classify as stopped. *)
Example classify_colored_not_running :
  classifyServiceOutput
    (String ESC "[31mps: applet not found" +:+ String ESC "[0m" +:+ String LF
       ("  " +:+ String ESC "[31mСервис не запущен" +:+ String ESC "[0m" +:+ String LF ""))
  = NotRunning.
Proof. vm_compute. reflexivity. Qed.

Example classify_blank_output :
  classifyServiceOutput ("   " +:+ String LF "ps: applet not found") = StatusUnknown.
Proof. vm_compute. reflexivity. Qed.

(** * Further properties of the code *)

(** ** ssh_client.go: WriteFile and ReadFile *)



(** [WriteFile] always sends the backup command and then the heredoc, and its
    result is the outcome of the heredoc alone: a backup that fails does not
    stop the write. *)
Theorem WriteFile_reports_only_the_heredoc (filePath content : string) (r : Remote) :
  exists backedUp,
    eventsSince r (snd (WriteFile filePath content r))
    = [(CmdBackup filePath, backedUp);
       (CmdHeredoc filePath content,
        bool_decide (fst (WriteFile filePath content r) = None))].
Proof.
  destruct (WriteFile filePath content r) as [err r2] eqn:Hwrite.
  apply WriteFile_inv in Hwrite as (backedUp & Hhist & _).
  exists backedUp. by apply eventsSince_app.
Qed.





(** ** ssh_client.go: the filter of GetServiceStatus *)

Lemma HasPrefix_empty (s : string) : HasPrefix s "" = true.
Proof. by destruct s. Qed.

Lemma HasPrefix_before_separator (e t sub : string) (c : ascii) :
  Contains sub (String c "") = false ->
  HasPrefix (e +:+ String c t) sub = true -> HasPrefix e sub = true.
Proof.
  revert e. induction sub as [|x sub IH]; intros e Hsub Hprefix;
    [by destruct e|].
  simpl in Hsub. apply orb_false_iff in Hsub as [Hx Hsub].
  rewrite HasPrefix_empty, andb_true_r in Hx.
  destruct e as [|d e]; simpl in *.
  - apply andb_true_iff in Hprefix as [Hxc _].
    apply Ascii.eqb_eq in Hxc. subst x. by rewrite Ascii.eqb_refl in Hx.
  - apply andb_true_iff in Hprefix as [Hxd Hprefix].
    rewrite Hxd. simpl. by apply IH.
Qed.

Lemma Contains_across_separator (e t sub : string) (c : ascii) :
  sub <> "" ->
  Contains sub (String c "") = false ->
  Contains (e +:+ String c t) sub = true ->
  Contains e sub = true \/ Contains t sub = true.
Proof.
  intros Hne Hsub. induction e as [|d e IH]; intros Hcontains.
  - simpl in Hcontains. apply orb_true_iff in Hcontains as [Hprefix | Hrest]; [|by right].
    apply (HasPrefix_before_separator "" t sub c Hsub) in Hprefix.
    destruct sub; [done | discriminate].
  - change (String d e +:+ String c t) with (String d (e +:+ String c t)) in Hcontains.
    simpl in Hcontains. apply orb_true_iff in Hcontains as [Hprefix | Hrest].
    + left. simpl. apply orb_true_iff. left.
      by apply (HasPrefix_before_separator (String d e) t sub c Hsub).
    + destruct (IH Hrest) as [He | Ht]; [left | by right].
      simpl. rewrite He. apply orb_true_r.
Qed.

Lemma Contains_Join_lines (lines : list string) (sub : string) :
  sub <> "" ->
  Contains sub NL = false ->
  Forall (fun line => Contains line sub = false) lines ->
  Contains (Join lines NL) sub = false.
Proof.
  intros Hne Hsub. induction 1 as [|line lines Hline _ IH].
  - destruct sub; [done | reflexivity].
  - destruct lines as [|line' lines]; [exact Hline|].
    change (Join (line :: line' :: lines) NL)
      with (line +:+ String LF (Join (line' :: lines) NL)).
    destruct (Contains (line +:+ String LF (Join (line' :: lines) NL)) sub) eqn:Hcontains;
      [|done].
    apply Contains_across_separator in Hcontains as [H1 | H2]; try done; congruence.
Qed.

(** The text [GetServiceStatus] returns never mentions "applet not found",
    whatever the status command printed. *)
Theorem cleanStatusOutput_drops_the_diagnostic (output : string) :
  Contains (cleanStatusOutput output) "applet not found" = false.
Proof.
  unfold cleanStatusOutput. apply Contains_Join_lines; [done | reflexivity |].
  apply Forall_forall. intros line Hin.
  apply list_elem_of_In, filter_In in Hin as [_ Hkeep].
  unfold keepStatusLine in Hkeep.
  apply andb_true_iff in Hkeep as [_ Hkeep].
  by apply negb_true_iff in Hkeep.
Qed.

(** ** vpn_manager.go: reading and validating *)

Lemma reads_send_one_cat {any} {J : JSON any} (vm : VPNManager) (r : Remote) :
  (files (snd (GetStatus vm r)) = files r /\
   exists ok, eventsSince r (snd (GetStatus vm r)) = [(CmdCat (configPath vm), ok)]) /\
  (files (snd (ValidateConfiguration vm r)) = files r /\
   exists ok, eventsSince r (snd (ValidateConfiguration vm r))
              = [(CmdCat (configPath vm), ok)]).
Proof.
  unfold GetStatus, ValidateConfiguration.
  destruct (ReadFile (configPath vm) r) as [[content err] r1] eqn:Hread.
  apply ReadFile_inv in Hread.
  assert (Hr1 : files r1 = files r /\
                exists ok, eventsSince r r1 = [(CmdCat (configPath vm), ok)]).
  { destruct err as [e|]; [subst r1 | destruct Hread as [_ ->]];
      (split; [done | eexists; by apply eventsSince_app]). }
  destruct err; [done|].
  destruct (json_Unmarshal content) as [e|config]; [done|].
  destruct (Routing config) as [routing|]; [|done].
  split; [done|]. by destruct (existsb isTargetRule (Rules routing)).
Qed.

(** [GetStatus] and [ValidateConfiguration] only read: each sends the one
    [cat] of the configuration path and leaves every remote file as it was,
    whatever the outcome. *)
Theorem GetStatus_and_ValidateConfiguration_only_read {any} {J : JSON any}
    (vm : VPNManager) (r : Remote) :
  (files (snd (GetStatus vm r)) = files r /\
   exists ok, eventsSince r (snd (GetStatus vm r)) = [(CmdCat (configPath vm), ok)]) /\
  (files (snd (ValidateConfiguration vm r)) = files r /\
   exists ok, eventsSince r (snd (ValidateConfiguration vm r))
              = [(CmdCat (configPath vm), ok)]).
Proof. apply reads_send_one_cat. Qed.

Lemma scanStatus_unknown_on_error {any} (rules : list (Rule any))
    (status : VPNStatus) (e : error) :
  scanStatus rules = (status, Some e) -> status = VPNStatusUnknown.
Proof.
  induction rules as [|rule rules IH]; simpl; [by intros [= <- _]|].
  destruct (isTargetRule rule); [|done]. unfold statusOfTag.
  destruct (String.eqb (OutboundTag rule) "vless-reality"); [discriminate|].
  destruct (String.eqb (OutboundTag rule) "direct"); discriminate.
Qed.

Lemma scanStatus_three_values {any} (rules : list (Rule any)) :
  fst (scanStatus rules) = VPNStatusEnabled \/
  fst (scanStatus rules) = VPNStatusDisabled \/
  fst (scanStatus rules) = VPNStatusUnknown.
Proof.
  induction rules as [|rule rules IH]; simpl; [auto|].
  destruct (isTargetRule rule); [|done]. unfold statusOfTag.
  destruct (String.eqb (OutboundTag rule) "vless-reality"); [auto|].
  destruct (String.eqb (OutboundTag rule) "direct"); auto.
Qed.

(** [GetStatus] answers with one of the three status constants, and with
    "unknown" whenever it returns an error. *)
Theorem GetStatus_unknown_on_error {any} {J : JSON any} (vm : VPNManager) (r : Remote) :
  let status := fst (fst (GetStatus vm r)) in
  let err := snd (fst (GetStatus vm r)) in
  (status = VPNStatusEnabled \/ status = VPNStatusDisabled \/ status = VPNStatusUnknown) /\
  (err <> None -> status = VPNStatusUnknown).
Proof.
  unfold GetStatus.
  destruct (ReadFile (configPath vm) r) as [[content err] r1].
  destruct err; [simpl; auto|].
  destruct (json_Unmarshal content) as [e|config]; [simpl; auto|].
  destruct (Routing config) as [routing|]; [|simpl; auto].
  simpl. split; [apply scanStatus_three_values|].
  destruct (scanStatus (Rules routing)) as [status [e|]] eqn:Hscan; [|done].
  intros _. by apply (scanStatus_unknown_on_error _ _ _ Hscan).
Qed.

Lemma scanStatus_no_error_iff {any} (rules : list (Rule any)) :
  snd (scanStatus rules) = None <-> existsb isTargetRule rules = true.
Proof.
  induction rules as [|rule rules IH]; simpl; [done|].
  destruct (isTargetRule rule); [|done]. simpl. unfold statusOfTag.
  destruct (String.eqb (OutboundTag rule) "vless-reality"); [done|].
  by destruct (String.eqb (OutboundTag rule) "direct").
Qed.

Lemma validation_agrees_with_status {any} {J : JSON any}
    (vm : VPNManager) (r : Remote) :
  fst (ValidateConfiguration vm r) = None <-> snd (fst (GetStatus vm r)) = None.
Proof.
  unfold GetStatus, ValidateConfiguration.
  destruct (ReadFile (configPath vm) r) as [[content err] r1].
  destruct err; [done|].
  destruct (json_Unmarshal content) as [e|config]; [done|].
  destruct (Routing config) as [routing|]; [|done].
  simpl. rewrite scanStatus_no_error_iff.
  by destruct (existsb isTargetRule (Rules routing)).
Qed.

(** [ValidateConfiguration] succeeds on exactly the router states on which
    [GetStatus] returns no error. *)
Theorem ValidateConfiguration_iff_GetStatus_succeeds {any} {J : JSON any}
    (vm : VPNManager) (r : Remote) :
  fst (ValidateConfiguration vm r) = None <-> snd (fst (GetStatus vm r)) = None.
Proof. apply validation_agrees_with_status. Qed.

Lemma validation_finds_target_rule {any} {J : JSON any} (vm : VPNManager) (r : Remote)
    (config : XrayConfig any) (routing : RoutingConfig any) (rule : Rule any) :
  readConfig vm r = Some config ->
  Routing config = Some routing ->
  rule ∈ Rules routing ->
  isTargetRule rule = true ->
  fst (ValidateConfiguration vm r) = None.
Proof.
  intros Hread Hrouting Hin Htarget.
  apply readConfig_inv in Hread as (content & r1 & Hread & Hparse).
  unfold ValidateConfiguration. rewrite Hread, Hparse, Hrouting.
  assert (Hfound : existsb isTargetRule (Rules routing) = true).
  { apply existsb_exists. exists rule. by rewrite <- list_elem_of_In. }
  by rewrite Hfound.
Qed.

(** ** vpn_manager.go: the mutation routine, continued *)

(** [setOutboundTag] returns nil exactly when its heredoc write went through;
    a run that returns nil has sent four commands: the read, the backup, the
    write and the restart, in this order. *)
Theorem setOutboundTag_succeeds_iff_written {any} {J : JSON any}
    (vm : VPNManager) (outboundTag : string) (r : Remote) :
  let r' := snd (setOutboundTag vm outboundTag r) in
  (fst (setOutboundTag vm outboundTag r) = None <->
   exists content, (CmdHeredoc (configPath vm) content, true) ∈ eventsSince r r') /\
  (fst (setOutboundTag vm outboundTag r) = None ->
   exists content backedUp restarted,
     eventsSince r r'
     = [(CmdCat (configPath vm), true); (CmdBackup (configPath vm), backedUp);
        (CmdHeredoc (configPath vm) content, true); (CmdXkeenRestart, restarted)]).
Proof.
  intros r'. subst r'.
  destruct (setOutboundTag vm outboundTag r) as [[e|] r'] eqn:Hset; simpl.
  - split; [|done]. split; [done|]. intros [content Hin].
    by apply (setOutboundTag_err_inv _ _ _ _ _ Hset) in Hin.
  - apply setOutboundTag_ok_inv in Hset
      as (config & routing & lastRule & content & backedUp & restarted
          & _ & _ & _ & _ & _ & _ & Hhist).
    apply eventsSince_app in Hhist. rewrite Hhist. split.
    + split; [intros _|done]. exists content.
      do 2 (apply elem_of_cons; right). apply elem_of_cons. by left.
    + intros _. by exists content, backedUp, restarted.
Qed.

(** A mutation only succeeds on a router state that [ValidateConfiguration]
    accepts and on which [GetStatus] returns no error. *)
Theorem setOutboundTag_succeeds_only_on_valid {any} {J : JSON any}
    (vm : VPNManager) (outboundTag : string) (r : Remote) :
  fst (setOutboundTag vm outboundTag r) = None ->
  fst (ValidateConfiguration vm r) = None /\ snd (fst (GetStatus vm r)) = None.
Proof.
  intros Hset.
  destruct (setOutboundTag vm outboundTag r) as [err r'] eqn:Hrun.
  simpl in Hset. subst err.
  apply setOutboundTag_ok_inv in Hrun
    as (config & routing & lastRule & content & backedUp & restarted
        & Hread & Hrouting & Hlast & Htarget & _).
  assert (Hvalid : fst (ValidateConfiguration vm r) = None).
  { apply (validation_finds_target_rule vm r config routing lastRule); try done.
    rewrite last_lookup in Hlast. by apply list_elem_of_lookup_2 in Hlast. }
  split; [done|]. by apply validation_agrees_with_status.
Qed.

Lemma setOutboundTag_succeeds_only_on_valid_witness :
  let J := sampleJSON in
  let r := routerWith (docOf [adsRule; defaultRule "direct"]) [] in
  fst (ValidateConfiguration NewVPNManager r) = None /\
  snd (fst (GetStatus NewVPNManager r)) = None.
Proof.
  intros J r.
  apply (setOutboundTag_succeeds_only_on_valid NewVPNManager "direct" r).
  vm_compute. reflexivity.
Defined.

(** A routing section without rules: the mutation stops at "no routing rules
    found" having sent only the read, while [GetStatus] and
    [ValidateConfiguration] report the target rule as not found. *)
Theorem empty_rule_list_is_refused {any} {J : JSON any}
    (vm : VPNManager) (outboundTag : string) (r : Remote)
    (config : XrayConfig any) (routing : RoutingConfig any) :
  readConfig vm r = Some config ->
  Routing config = Some routing ->
  Rules routing = [] ->
  fst (setOutboundTag vm outboundTag r) = Some (Errorf "no routing rules found") /\
  eventsSince r (snd (setOutboundTag vm outboundTag r))
    = [(CmdCat (configPath vm), true)] /\
  fst (GetStatus vm r)
    = (VPNStatusUnknown, Some (Errorf "target routing rule not found")) /\
  fst (ValidateConfiguration vm r) = Some (Errorf "target routing rule not found").
Proof.
  intros Hread Hrouting Hrules.
  apply readConfig_inv in Hread as (content & r1 & Hread & Hparse).
  unfold setOutboundTag, GetStatus, ValidateConfiguration.
  rewrite Hread, Hparse, Hrouting, Hrules. simpl.
  apply ReadFile_inv in Hread as [_ ->].
  repeat split. by apply eventsSince_app.
Qed.

Lemma empty_rule_list_is_refused_witness :
  let J := tableJSON [docOf []] in
  let r := routerWith (docOf []) [] in
  fst (setOutboundTag NewVPNManager "direct" r) = Some (Errorf "no routing rules found") /\
  eventsSince r (snd (setOutboundTag NewVPNManager "direct" r))
    = [(CmdCat (configPath NewVPNManager), true)] /\
  fst (GetStatus NewVPNManager r)
    = (VPNStatusUnknown, Some (Errorf "target routing rule not found")) /\
  fst (ValidateConfiguration NewVPNManager r)
    = Some (Errorf "target routing rule not found").
Proof.
  intros J r.
  apply (empty_rule_list_is_refused (J := J) NewVPNManager "direct" r (docOf [])
           (mkRoutingConfig "IPIfNonMatch" [])).
  - vm_compute. reflexivity.
  - reflexivity.
  - reflexivity.
Defined.

Lemma updateRule_same_tag {any} (config : XrayConfig any) (routing : RoutingConfig any)
    (lastRule : Rule any) :
  Routing config = Some routing ->
  last (Rules routing) = Some lastRule ->
  updateRule routing (length (Rules routing) - 1) lastRule (OutboundTag lastRule) = config.
Proof.
  intros Hrouting Hlast. destruct config as [routing0]. simpl in Hrouting. subst routing0.
  destruct routing as [strategy rules]. simpl in *. unfold updateRule. simpl.
  do 2 f_equal. f_equal.
  apply list_insert_id. rewrite last_lookup_sub1, Hlast. by destruct lastRule.
Qed.

(** There is no short cut when the outbound tag is already the one asked for:
    a successful run still backs up, writes and restarts, and the text it
    writes is the serialization of the document exactly as it was parsed. *)
Theorem setOutboundTag_same_tag_rewrites_unchanged {any} {J : JSON any}
    (vm : VPNManager) (r r' : Remote)
    (config : XrayConfig any) (routing : RoutingConfig any) (lastRule : Rule any) :
  readConfig vm r = Some config ->
  Routing config = Some routing ->
  last (Rules routing) = Some lastRule ->
  setOutboundTag vm (OutboundTag lastRule) r = (None, r') ->
  exists content backedUp restarted,
    json_MarshalIndent config = inr content /\
    files r' !! configPath vm = Some content /\
    eventsSince r r'
    = [(CmdCat (configPath vm), true); (CmdBackup (configPath vm), backedUp);
       (CmdHeredoc (configPath vm) content, true); (CmdXkeenRestart, restarted)].
Proof.
  intros Hread Hrouting Hlast Hset.
  apply setOutboundTag_ok_inv in Hset
    as (config0 & routing0 & lastRule0 & content & backedUp & restarted
        & Hread0 & Hrouting0 & Hlast0 & _ & Hmarshal & Hfile & Hhist).
  rewrite Hread in Hread0. injection Hread0 as <-.
  rewrite Hrouting in Hrouting0. injection Hrouting0 as <-.
  rewrite Hlast in Hlast0. injection Hlast0 as <-.
  rewrite (updateRule_same_tag config routing lastRule Hrouting Hlast) in Hmarshal.
  exists content, backedUp, restarted. repeat split; try done.
  by apply eventsSince_app.
Qed.

Lemma setOutboundTag_same_tag_rewrites_unchanged_witness :
  let J := sampleJSON in
  let config := docOf [adsRule; defaultRule "direct"] in
  let r := routerWith config [] in
  let r' := snd (DisableVPN NewVPNManager r) in
  exists content backedUp restarted,
    json_MarshalIndent config = inr content /\
    files r' !! configPath NewVPNManager = Some content /\
    eventsSince r r'
    = [(CmdCat (configPath NewVPNManager), true);
       (CmdBackup (configPath NewVPNManager), backedUp);
       (CmdHeredoc (configPath NewVPNManager) content, true);
       (CmdXkeenRestart, restarted)].
Proof.
  intros J config r r'.
  apply (setOutboundTag_same_tag_rewrites_unchanged (J := J) NewVPNManager r r' config
           (mkRoutingConfig "IPIfNonMatch" [adsRule; defaultRule "direct"])
           (defaultRule "direct")).
  - vm_compute. reflexivity.
  - reflexivity.
  - reflexivity.
  - vm_compute. reflexivity.
Defined.

(** ** main.go and ssh_client.go: start-up checks *)

Lemma healthCheckLoop_missingEnvVar (env : gmap string string) (vars : list string) :
  healthCheckLoop env vars = 0%Z <-> missingEnvVar env vars = None.
Proof.
  induction vars as [|envVar vars IH]; simpl; [done|].
  by destruct (String.eqb (Getenv env envVar) "").
Qed.

Lemma missingEnvVar_None (env : gmap string string) (vars : list string) :
  missingEnvVar env vars = None <-> forall envVar, envVar ∈ vars -> Getenv env envVar <> "".
Proof.
  induction vars as [|envVar vars IH]; simpl.
  - split; [|done]. intros _ v Hv. by apply not_elem_of_nil in Hv.
  - destruct (String.eqb_spec (Getenv env envVar) "") as [Hempty | Hset].
    + split; [done|]. intros Hall. destruct (Hall envVar); [|done].
      apply elem_of_cons. by left.
    + rewrite IH. split.
      * intros Hall v Hv. apply elem_of_cons in Hv as [-> | Hv]; auto.
      * intros Hall v Hv. apply Hall. apply elem_of_cons. by right.
Qed.

(** The health check exits with 0 exactly when the start-up validation of
    [main] finds no missing variable, that is when the five required
    variables are all set to a non-empty value; and then [NewSSHClient] on
    the router variables cannot fail. *)
Theorem runHealthCheck_agrees_with_startup (env : gmap string string) :
  (runHealthCheck env = 0%Z <-> missingEnvVar env requiredEnvVars = None) /\
  (runHealthCheck env = 0%Z <->
   forall envVar, envVar ∈ requiredEnvVars -> Getenv env envVar <> "") /\
  (runHealthCheck env = 0%Z ->
   NewSSHClient (Getenv env "ROUTER_HOST") (Getenv env "ROUTER_USERNAME")
                (Getenv env "ROUTER_PASSWORD")
   = inr {| host := Getenv env "ROUTER_HOST";
            username := Getenv env "ROUTER_USERNAME";
            password := Getenv env "ROUTER_PASSWORD" |}).
Proof.
  unfold runHealthCheck.
  change requiredVars with requiredEnvVars.
  rewrite healthCheckLoop_missingEnvVar.
  split; [done|]. split; [apply missingEnvVar_None|].
  intros Hall. rewrite missingEnvVar_None in Hall.
  assert (Hhost : Getenv env "ROUTER_HOST" <> "") by (apply Hall; set_solver).
  assert (Huser : Getenv env "ROUTER_USERNAME" <> "") by (apply Hall; set_solver).
  assert (Hpass : Getenv env "ROUTER_PASSWORD" <> "") by (apply Hall; set_solver).
  unfold NewSSHClient.
  apply String.eqb_neq in Hhost, Huser, Hpass. by rewrite Hhost, Huser, Hpass.
Qed.

Lemma runHealthCheck_agrees_with_startup_witness :
  let env : gmap string string :=
    list_to_map [("TELEGRAM_BOT_TOKEN", "123:abc"); ("AUTH_CODE", "secret");
                 ("ROUTER_HOST", "192.168.1.1"); ("ROUTER_USERNAME", "root");
                 ("ROUTER_PASSWORD", "keenetic")] in
  runHealthCheck env = 0%Z /\
  NewSSHClient (Getenv env "ROUTER_HOST") (Getenv env "ROUTER_USERNAME")
               (Getenv env "ROUTER_PASSWORD")
  = inr {| host := "192.168.1.1"; username := "root"; password := "keenetic" |}.
Proof.
  intros env.
  assert (Hok : runHealthCheck env = 0%Z) by (vm_compute; reflexivity).
  split; [exact Hok|].
  apply (proj2 (proj2 (runHealthCheck_agrees_with_startup env)) Hok).
Defined.

Lemma Contains_append_suffix (s t sub : string) :
  Contains t sub = true -> Contains (s +:+ t) sub = true.
Proof.
  intros Ht. induction s as [|c s IH]; [exact Ht|].
  change (String c s +:+ t) with (String c (s +:+ t)). simpl.
  rewrite IH. apply orb_true_r.
Qed.

(** The address [Connect] dials always has a colon: a host that has one is
    dialled as it is, any other host gets ":22" appended. *)
Theorem dialAddress_has_a_port (s : SSHClient) :
  containsPort (dialAddress s) = true /\
  (containsPort (host s) = true -> dialAddress s = host s) /\
  (containsPort (host s) = false -> dialAddress s = host s +:+ ":22").
Proof.
  unfold dialAddress.
  destruct (containsPort (host s)) eqn:Hport; simpl.
  - by rewrite Hport.
  - split; [|done]. unfold containsPort. by apply Contains_append_suffix.
Qed.

(** ** telegram_bot.go: sending *)

Lemma onlyChats_refl (w : World) : onlyChats w w.
Proof. by repeat split. Qed.

Lemma onlyChats_trans (w1 w2 w3 : World) :
  onlyChats w1 w2 -> onlyChats w2 w3 -> onlyChats w1 w3.
Proof.
  intros (? & ? & ? & ?) (? & ? & ? & ?). repeat split; congruence.
Qed.

Lemma botSend_inv (c : Chattable) (w w1 : World) (messageID : Z) (ok : bool) :
  botSend c w = (messageID, ok, w1) ->
  bot w1 = bot w /\ router w1 = router w /\
  sent (telegram w1) = sent (telegram w) ++ [(c, ok)] /\
  (ok = false -> messageID = 0%Z /\ nextMessageID (telegram w1) = nextMessageID (telegram w)) /\
  (ok = true -> forall msg, c = SendText msg ->
     messageID = nextMessageID (telegram w) /\
     nextMessageID (telegram w1) = (nextMessageID (telegram w) + 1)%Z) /\
  (forall chatID id, c = DeleteMessage chatID id ->
     nextMessageID (telegram w1) = nextMessageID (telegram w)) /\
  (forall chatID id text mode, c = EditMessageText chatID id text mode ->
     nextMessageID (telegram w1) = nextMessageID (telegram w)).
Proof.
  unfold botSend, Send. intros Hsend.
  destruct (head (sendFaults (telegram w))) as [[|]|]; destruct c;
    injection Hsend as <- <- <-; simpl;
    repeat split; try done; intros; congruence.
Qed.

Lemma onlyChats_botSend (c : Chattable) (w : World) : onlyChats w (snd (botSend c w)).
Proof.
  destruct (botSend c w) as [[messageID ok] w1] eqn:Hsend.
  apply botSend_inv in Hsend as (Hbot & Hrouter & _). simpl.
  unfold onlyChats. by rewrite Hbot, Hrouter.
Qed.

Lemma onlyChats_setLast (w : World) (chatID messageID : Z) :
  onlyChats w (setBot w (setLastMessage (bot w) chatID messageID)).
Proof. by repeat split. Qed.

Lemma onlyChats_setLastType (w : World) (chatID messageID : Z) (msgType : string) :
  onlyChats w
    (setBot w (setLastMsgType (setLastMessage (bot w) chatID messageID) chatID msgType)).
Proof. by repeat split. Qed.

Lemma onlyChats_sendMessageLoop (attempts : nat) (msg : MessageConfig) (w : World) :
  onlyChats w (sendMessageLoop attempts msg w).
Proof.
  revert w. induction attempts as [|attempts IH]; intros w; simpl;
    [apply onlyChats_refl|].
  pose proof (onlyChats_botSend (SendText msg) w) as Hsend.
  destruct (botSend (SendText msg) w) as [[messageID ok] w1]. simpl in Hsend.
  destruct ok.
  - eapply onlyChats_trans; [exact Hsend | apply onlyChats_setLast].
  - eapply onlyChats_trans; [exact Hsend | apply IH].
Qed.

Lemma onlyChats_sendMessage (msg : MessageConfig) (w : World) :
  onlyChats w (sendMessage msg w).
Proof. apply onlyChats_sendMessageLoop. Qed.

Lemma onlyChats_deleteUserMessage (chatID messageID : Z) (w : World) :
  onlyChats w (deleteUserMessage chatID messageID w).
Proof.
  unfold deleteUserMessage.
  destruct (0 <? messageID)%Z; [apply onlyChats_botSend | apply onlyChats_refl].
Qed.

Lemma onlyChats_storeUserMessageID (userID messageID : Z) (w : World) :
  onlyChats w (storeUserMessageID userID messageID w).
Proof. by repeat split. Qed.

Lemma onlyChats_sendProgressiveMessage (chatID : Z) (initialText msgType : string)
    (userMsgID : Z) (w : World) :
  onlyChats w (snd (sendProgressiveMessage chatID initialText msgType userMsgID w)).
Proof.
  unfold sendProgressiveMessage.
  set (previous := sameTypeBefore _ _ _).
  set (w1 := match previous with Some _ => _ | None => w end).
  assert (H1 : onlyChats w w1).
  { subst w1. destruct previous; [apply onlyChats_botSend | apply onlyChats_refl]. }
  set (w2 := if (0 <? userMsgID)%Z then _ else w1).
  assert (H2 : onlyChats w w2).
  { subst w2. destruct (0 <? userMsgID)%Z; [|done].
    eapply onlyChats_trans; [exact H1 | apply onlyChats_botSend]. }
  pose proof (onlyChats_botSend (SendText (NewMessage chatID initialText)) w2) as H3.
  destruct (botSend (SendText (NewMessage chatID initialText)) w2) as [[messageID ok] w3].
  simpl in H3. destruct ok; simpl.
  - eapply onlyChats_trans; [|apply onlyChats_setLastType].
    by eapply onlyChats_trans.
  - by eapply onlyChats_trans.
Qed.

Lemma onlyChats_sendStatusMessageWithMarkdown (chatID : Z) (text msgType : string)
    (w : World) :
  onlyChats w (sendStatusMessageWithMarkdown chatID text msgType w).
Proof.
  unfold sendStatusMessageWithMarkdown.
  set (previous := sameTypeBefore _ _ _).
  set (msg := withReplyMarkup _ _).
  pose proof (onlyChats_botSend (SendText msg) w) as H1.
  destruct (botSend (SendText msg) w) as [[messageID ok] w1]. simpl in H1.
  destruct ok; [|done].
  assert (H2 : onlyChats w
                 (setBot w1 (setLastMsgType (setLastMessage (bot w1) chatID messageID)
                               chatID msgType))).
  { eapply onlyChats_trans; [exact H1 | apply onlyChats_setLastType]. }
  destruct previous; [|done].
  eapply onlyChats_trans; [exact H2 | apply onlyChats_botSend].
Qed.

Lemma onlyChats_updateProgressiveMessage (chatID messageID : Z) (finalText : string)
    (w : World) :
  onlyChats w (updateProgressiveMessage chatID messageID finalText w).
Proof.
  unfold updateProgressiveMessage.
  destruct (messageID =? 0)%Z; [apply onlyChats_refl|].
  pose proof (onlyChats_botSend (EditMessageText chatID messageID finalText "Markdown") w)
    as H1.
  destruct (botSend _ w) as [[id ok] w1]. simpl in H1.
  destruct ok; [done|].
  eapply onlyChats_trans; [exact H1 | apply onlyChats_sendStatusMessageWithMarkdown].
Qed.

Lemma sentSince_app (w w' : World) (calls : list (Chattable * bool)) :
  sent (telegram w') = sent (telegram w) ++ calls -> sentSince w w' = calls.
Proof. unfold sentSince. intros ->. apply drop_app_length. Qed.

Lemma sendMessageLoop_attempts (attempts : nat) (msg : MessageConfig) (w : World) :
  let w' := sendMessageLoop attempts msg w in
  (exists failures,
      failures < attempts /\
      sent (telegram w')
      = sent (telegram w) ++ replicate failures (SendText msg, false) ++ [(SendText msg, true)] /\
      lastMessages (bot w') !! msgChatID msg
      = Some (nextMessageID (telegram w)) /\
      nextMessageID (telegram w') = (nextMessageID (telegram w) + 1)%Z) \/
  (sent (telegram w') = sent (telegram w) ++ replicate attempts (SendText msg, false) /\
   bot w' = bot w /\
   nextMessageID (telegram w') = nextMessageID (telegram w)).
Proof.
  revert w. induction attempts as [|attempts IH]; intros w; simpl.
  - right. by rewrite app_nil_r.
  - destruct (botSend (SendText msg) w) as [[messageID ok] w1] eqn:Hsend.
    apply botSend_inv in Hsend as (Hbot & _ & Hsent & Hfail & Hok & _).
    destruct ok.
    + left. exists 0. destruct (Hok eq_refl msg eq_refl) as [-> Hnext].
      simpl. repeat split; [lia | done | apply lookup_insert_eq | done].
    + destruct (Hfail eq_refl) as [_ Hnext].
      destruct (IH w1) as [(failures & Hlt & Hsent' & Hlast & Hnext') | (Hsent' & Hbot' & Hnext')].
      * left. exists (S failures). rewrite Hsent', Hsent, Hlast, Hnext', Hnext.
        simpl. rewrite <- app_assoc. repeat split; try done. lia.
      * right. rewrite Hsent', Hsent, Hbot', Hbot, Hnext', Hnext.
        by rewrite <- app_assoc.
Qed.

(** [sendMessage] tries at most three times and stops at the first attempt
    that goes through, recording the identifier of the message for the chat;
    after three failures it gives up and leaves the bot as it was. *)
Theorem sendMessage_retries_three_times (msg : MessageConfig) (w : World) :
  let w' := sendMessage msg w in
  (exists failures,
      failures < 3 /\
      sentSince w w' = replicate failures (SendText msg, false) ++ [(SendText msg, true)] /\
      lastMessages (bot w') !! msgChatID msg = Some (nextMessageID (telegram w))) \/
  (sentSince w w' = replicate 3 (SendText msg, false) /\ bot w' = bot w).
Proof.
  intros w'. subst w'. unfold sendMessage.
  destruct (sendMessageLoop_attempts 3 msg w)
    as [(failures & Hlt & Hsent & Hlast & _) | (Hsent & Hbot & _)].
  - left. exists failures. repeat split; try done. by apply sentSince_app.
  - right. split; [by apply sentSince_app | done].
Qed.

(** ** telegram_bot.go: what each handler does to the router and the cache *)

Lemma handleAuth_inv {any} {J : JSON any} (message : Message) (w : World) :
  let w' := handleAuth message w in
  let result := GetStatus (vpnManager (bot w)) (router w) in
  let currentStatus :=
    match snd (fst result) with
    | Some _ => VPNStatusUnknown
    | None => fst (fst result)
    end in
  authCode (bot w') = authCode (bot w) /\
  vpnManager (bot w') = vpnManager (bot w) /\
  (((exists first, Fields (Text message) = [first; authCode (bot w)]) /\
    router w' = snd result /\
    authorizedUsers (bot w')
    = authorizeUser (FromID message) currentStatus (authorizedUsers (bot w))) \/
   (~ (exists first, Fields (Text message) = [first; authCode (bot w)]) /\
    onlyChats w w')).
Proof.
  intros w' result currentStatus. subst w' result currentStatus. unfold handleAuth.
  destruct (Fields (Text message)) as [|first [|code [|third rest]]] eqn:Hfields; simpl.
  1, 2, 4:
    match goal with
    | |- context [sendMessage ?msg ?w0] =>
        destruct (onlyChats_sendMessage msg w0) as (Hr & Hu & Hc & Hm)
    end;
    (split; [done|]; split; [done|]; right;
     split; [by intros [x [=]] | by repeat split]).
  destruct (String.eqb_spec code (authCode (bot w))) as [-> | Hne].
  - destruct (GetStatus (vpnManager (bot w)) (router w)) as [[status err] r1]. simpl.
    match goal with
    | |- context [sendMessage ?msg ?w2] =>
        destruct (onlyChats_sendMessage msg w2) as (Hr & Hu & Hc & Hm)
    end.
    simpl in *. split; [done|]. split; [done|]. left.
    split; [by exists first|]. split; [done|]. rewrite Hu. by destruct err.
  - match goal with
    | |- context [sendMessage ?msg ?w0] =>
        destruct (onlyChats_sendMessage msg w0) as (Hr & Hu & Hc & Hm)
    end.
    split; [done|]. split; [done|]. right.
    split; [intros [x [= _ Hx]]; congruence | by repeat split].
Qed.

(** [handleAuth] authorizes the sender exactly when the text has two fields
    and the second is the configured code; the status it caches is the one
    [GetStatus] returns, "unknown" when [GetStatus] fails.  With any other
    text it sends nothing to the router and leaves the cache as it is. *)
Theorem handleAuth_authorizes_on_the_code {any} {J : JSON any}
    (message : Message) (w : World) :
  let w' := handleAuth message w in
  let result := GetStatus (vpnManager (bot w)) (router w) in
  ((exists first, Fields (Text message) = [first; authCode (bot w)]) ->
   router w' = snd result /\
   getCachedStatus (FromID message) (authorizedUsers (bot w'))
   = match snd (fst result) with
     | Some _ => VPNStatusUnknown
     | None => fst (fst result)
     end /\
   isUserAuthorized (FromID message) (authorizedUsers (bot w')) = true) /\
  (~ (exists first, Fields (Text message) = [first; authCode (bot w)]) ->
   router w' = router w /\ authorizedUsers (bot w') = authorizedUsers (bot w)).
Proof.
  intros w' result.
  destruct (handleAuth_inv message w)
    as (_ & _ & [(Hcode & Hrouter & Hcache) | (Hnocode & Hr & Hu & _)]);
    fold w' in Hrouter, Hcache || fold w' in Hr, Hu.
  - split; [|done]. intros _. split; [done|]. rewrite Hcache.
    unfold getCachedStatus, isUserAuthorized, authorizeUser.
    by rewrite lookup_insert_eq.
  - split; [done|]. by intros _.
Qed.

Lemma handleAuth_authorizes_on_the_code_witness :
  let J := sampleJSON in
  let w := startWorld "secret" (docOf [adsRule; defaultRule "vless-reality"]) [] in
  let granted := handleAuth (mkMessage 5 42 "ann" 42 "/auth   secret" "12:00") w in
  let denied := handleAuth (mkMessage 6 43 "bob" 43 "/auth secret please" "12:00") w in
  (getCachedStatus 42 (authorizedUsers (bot granted)) = VPNStatusEnabled /\
   isUserAuthorized 42 (authorizedUsers (bot granted)) = true) /\
  (router denied = router w /\ authorizedUsers (bot denied) = authorizedUsers (bot w)).
Proof.
  intros J w granted denied. split.
  - destruct (proj1 (handleAuth_authorizes_on_the_code
                       (J := J) (mkMessage 5 42 "ann" 42 "/auth   secret" "12:00") w))
      as (_ & Hstatus & Hauth).
    + exists "/auth". vm_compute. reflexivity.
    + split; [exact Hstatus | exact Hauth].
  - apply (proj2 (handleAuth_authorizes_on_the_code
                    (J := J) (mkMessage 6 43 "bob" 43 "/auth secret please" "12:00") w)).
    intros [first Hfields]. vm_compute in Hfields. discriminate.
Defined.

Lemma sendStatusMessageWithMarkdown_sent (chatID : Z) (text msgType : string) (w : World) :
  exists calls,
    sent (telegram (sendStatusMessageWithMarkdown chatID text msgType w))
    = sent (telegram w) ++ calls.
Proof.
  unfold sendStatusMessageWithMarkdown.
  set (previous := sameTypeBefore _ _ _).
  set (msg := withReplyMarkup _ _).
  destruct (botSend (SendText msg) w) as [[messageID ok] w1] eqn:Hsend.
  apply botSend_inv in Hsend as (_ & _ & Hsent & _).
  destruct ok; [|by eexists].
  destruct previous as [lastMessageID|]; [|by eexists].
  destruct (botSend (DeleteMessage chatID lastMessageID) _) as [[id2 ok2] w2] eqn:Hdelete.
  apply botSend_inv in Hdelete as (_ & _ & Hsent2 & _). simpl in *.
  rewrite Hsent2, Hsent, <- app_assoc. by eexists.
Qed.

Lemma updateProgressiveMessage_sent (chatID messageID : Z) (finalText : string) (w : World) :
  let w' := updateProgressiveMessage chatID messageID finalText w in
  (messageID = 0%Z -> w' = w) /\
  (messageID <> 0%Z ->
   exists ok rest,
     sent (telegram w')
     = sent (telegram w)
       ++ (EditMessageText chatID messageID finalText "Markdown", ok) :: rest).
Proof.
  intros w'. subst w'. unfold updateProgressiveMessage. split.
  - intros ->. reflexivity.
  - intros Hne. apply Z.eqb_neq in Hne. rewrite Hne.
    destruct (botSend _ w) as [[id ok] w1] eqn:Hsend.
    apply botSend_inv in Hsend as (_ & _ & Hsent & _).
    destruct ok; [by exists true, []|].
    destruct (sendStatusMessageWithMarkdown_sent chatID finalText "fallback" w1)
      as [calls Hcalls].
    exists false, calls. by rewrite Hcalls, Hsent, <- app_assoc.
Qed.

Lemma handleStatus_effect {any} {J : JSON any} (message : Message) (w : World) :
  let w' := handleStatus message w in
  let result := GetStatus (vpnManager (bot w)) (router w) in
  router w' = snd result /\
  authCode (bot w') = authCode (bot w) /\
  vpnManager (bot w') = vpnManager (bot w) /\
  authorizedUsers (bot w')
  = match snd (fst result) with
    | Some _ => authorizedUsers (bot w)
    | None => updateCachedStatus (FromID message) (fst (fst result)) (authorizedUsers (bot w))
    end.
Proof.
  intros w' result. subst w' result. unfold handleStatus.
  pose proof (onlyChats_sendProgressiveMessage (ChatID message)
                "🔍 Checking traffic routing status..." "vpn_status"
                (MessageID message) w) as (Hr & Hu & Hc & Hm).
  destruct (sendProgressiveMessage _ _ _ _ w) as [msgID w1]. simpl in *.
  rewrite Hm, Hr.
  destruct (GetStatus (vpnManager (bot w)) (router w)) as [[status err] r1]. simpl.
  destruct err as [e|].
  - destruct (negb _);
      match goal with
      | |- context [updateProgressiveMessage ?c ?i ?t ?w0] =>
          destruct (onlyChats_updateProgressiveMessage c i t w0) as (Hr' & Hu' & Hc' & Hm')
      end; simpl in *; by rewrite Hr', Hu', Hc', Hm', Hu.
  - match goal with
    | |- context [updateProgressiveMessage ?c ?i ?t ?w0] =>
        destruct (onlyChats_updateProgressiveMessage c i t w0) as (Hr' & Hu' & Hc' & Hm')
    end; simpl in *. by rewrite Hr', Hu', Hc', Hm', Hu.
Qed.

Lemma handleEnableVPN_effect {any} {J : JSON any} (message : Message) (w : World) :
  let w' := handleEnableVPN message w in
  let result := EnableVPN (vpnManager (bot w)) (router w) in
  router w' = snd result /\
  authCode (bot w') = authCode (bot w) /\
  vpnManager (bot w') = vpnManager (bot w) /\
  authorizedUsers (bot w')
  = match fst result with
    | Some _ => authorizedUsers (bot w)
    | None => updateCachedStatus (FromID message) VPNStatusEnabled (authorizedUsers (bot w))
    end.
Proof.
  intros w' result. subst w' result. unfold handleEnableVPN.
  pose proof (onlyChats_deleteUserMessage (ChatID message) (MessageID message) w)
    as (Hr & Hu & Hc & Hm).
  rewrite Hm, Hr.
  destruct (EnableVPN (vpnManager (bot w)) (router w)) as [err r1]. simpl.
  destruct err as [e|].
  - match goal with
    | |- context [sendMessage ?msg ?w0] =>
        destruct (onlyChats_sendMessage msg w0) as (Hr' & Hu' & Hc' & Hm')
    end; simpl in *. by rewrite Hr', Hu', Hc', Hm', Hu.
  - unfold sendOrEditMessage.
    match goal with
    | |- context [sendStatusMessageWithMarkdown ?c ?t ?ty ?w0] =>
        destruct (onlyChats_sendStatusMessageWithMarkdown c t ty w0) as (Hr' & Hu' & Hc' & Hm')
    end; simpl in *. by rewrite Hr', Hu', Hc', Hm', Hu.
Qed.

Lemma handleDisableVPN_effect {any} {J : JSON any} (message : Message) (w : World) :
  let w' := handleDisableVPN message w in
  let result := DisableVPN (vpnManager (bot w)) (router w) in
  router w' = snd result /\
  authCode (bot w') = authCode (bot w) /\
  vpnManager (bot w') = vpnManager (bot w) /\
  authorizedUsers (bot w')
  = match fst result with
    | Some _ => authorizedUsers (bot w)
    | None => updateCachedStatus (FromID message) VPNStatusDisabled (authorizedUsers (bot w))
    end.
Proof.
  intros w' result. subst w' result. unfold handleDisableVPN.
  pose proof (onlyChats_deleteUserMessage (ChatID message) (MessageID message) w)
    as (Hr & Hu & Hc & Hm).
  rewrite Hm, Hr.
  destruct (DisableVPN (vpnManager (bot w)) (router w)) as [err r1]. simpl.
  destruct err as [e|].
  - match goal with
    | |- context [sendMessage ?msg ?w0] =>
        destruct (onlyChats_sendMessage msg w0) as (Hr' & Hu' & Hc' & Hm')
    end; simpl in *. by rewrite Hr', Hu', Hc', Hm', Hu.
  - unfold sendOrEditMessage.
    match goal with
    | |- context [sendStatusMessageWithMarkdown ?c ?t ?ty ?w0] =>
        destruct (onlyChats_sendStatusMessageWithMarkdown c t ty w0) as (Hr' & Hu' & Hc' & Hm')
    end; simpl in *. by rewrite Hr', Hu', Hc', Hm', Hu.
Qed.

Lemma handleStartVPN_effect (message : Message) (w : World) :
  let w' := handleStartVPN message w in
  router w' = snd (StartVPNService (router w)) /\
  authCode (bot w') = authCode (bot w) /\
  vpnManager (bot w') = vpnManager (bot w) /\
  authorizedUsers (bot w') = authorizedUsers (bot w).
Proof.
  intros w'. subst w'. unfold handleStartVPN.
  pose proof (onlyChats_deleteUserMessage (ChatID message) (MessageID message) w)
    as (Hr & Hu & Hc & Hm).
  rewrite Hr.
  destruct (StartVPNService (router w)) as [err r1]. simpl.
  destruct err as [e|].
  - match goal with
    | |- context [sendMessage ?msg ?w0] =>
        destruct (onlyChats_sendMessage msg w0) as (Hr' & Hu' & Hc' & Hm')
    end; simpl in *. by rewrite Hr', Hu', Hc', Hm'.
  - unfold sendOrEditMessage.
    match goal with
    | |- context [sendStatusMessageWithMarkdown ?c ?t ?ty ?w0] =>
        destruct (onlyChats_sendStatusMessageWithMarkdown c t ty w0) as (Hr' & Hu' & Hc' & Hm')
    end; simpl in *. by rewrite Hr', Hu', Hc', Hm'.
Qed.

Lemma handleStopVPN_effect (message : Message) (w : World) :
  let w' := handleStopVPN message w in
  router w' = snd (StopVPNService (router w)) /\
  authCode (bot w') = authCode (bot w) /\
  vpnManager (bot w') = vpnManager (bot w) /\
  authorizedUsers (bot w') = authorizedUsers (bot w).
Proof.
  intros w'. subst w'. unfold handleStopVPN.
  pose proof (onlyChats_deleteUserMessage (ChatID message) (MessageID message) w)
    as (Hr & Hu & Hc & Hm).
  rewrite Hr.
  destruct (StopVPNService (router w)) as [err r1]. simpl.
  destruct err as [e|].
  - match goal with
    | |- context [sendMessage ?msg ?w0] =>
        destruct (onlyChats_sendMessage msg w0) as (Hr' & Hu' & Hc' & Hm')
    end; simpl in *. by rewrite Hr', Hu', Hc', Hm'.
  - unfold sendOrEditMessage.
    match goal with
    | |- context [sendStatusMessageWithMarkdown ?c ?t ?ty ?w0] =>
        destruct (onlyChats_sendStatusMessageWithMarkdown c t ty w0) as (Hr' & Hu' & Hc' & Hm')
    end; simpl in *. by rewrite Hr', Hu', Hc', Hm'.
Qed.

Lemma handleServiceStatusMessage_effect (message : Message) (w : World) :
  let w' := handleServiceStatusMessage message w in
  router w' = snd (GetServiceStatus (router w)) /\
  authCode (bot w') = authCode (bot w) /\
  vpnManager (bot w') = vpnManager (bot w) /\
  authorizedUsers (bot w') = authorizedUsers (bot w).
Proof.
  intros w'. subst w'. unfold handleServiceStatusMessage.
  pose proof (onlyChats_sendProgressiveMessage (ChatID message)
                "🔋 Checking VPN daemon status..." "service_status"
                (MessageID message) w) as (Hr & Hu & Hc & Hm).
  destruct (sendProgressiveMessage _ _ _ _ w) as [msgID w1]. simpl in *.
  rewrite Hr.
  assert (Hsame : snd (handleServiceStatus (TimeHHMM message) (router w))
                  = snd (GetServiceStatus (router w))).
  { unfold handleServiceStatus, GetVPNServiceStatus.
    destruct (GetServiceStatus (router w)) as [[status err] r1]. by destruct err. }
  destruct (handleServiceStatus (TimeHHMM message) (router w)) as [responseText r1].
  simpl in Hsame. subst r1.
  match goal with
  | |- context [updateProgressiveMessage ?c ?i ?t ?w0] =>
      destruct (onlyChats_updateProgressiveMessage c i t w0) as (Hr' & Hu' & Hc' & Hm')
  end; simpl in *. by rewrite Hr', Hu', Hc', Hm'.
Qed.

(** ** telegram_bot.go: the dispatcher *)

Lemma isUserAuthorized_updateCachedStatus_eq (U U' : Z) (S : VPNStatus)
    (users users' : gmap Z VPNStatus) :
  users' = updateCachedStatus U' S users \/ users' = users ->
  isUserAuthorized U users' = isUserAuthorized U users.
Proof.
  intros [-> | ->]; [apply isUserAuthorized_updateCachedStatus | done].
Qed.

Lemma handleAuthorizedCommand_effect {any} {J : JSON any} (message : Message) (w : World) :
  let w' := handleAuthorizedCommand message w in
  let vm := vpnManager (bot w) in
  let r := router w in
  authCode (bot w') = authCode (bot w) /\
  vpnManager (bot w') = vm /\
  (forall U, isUserAuthorized U (authorizedUsers (bot w'))
             = isUserAuthorized U (authorizedUsers (bot w))) /\
  ((Text message = CommandEnableVPN /\ router w' = snd (EnableVPN vm r)) \/
   (Text message = CommandDisableVPN /\ router w' = snd (DisableVPN vm r)) \/
   router w' = snd (GetStatus vm r) \/
   router w' = snd (StartVPNService r) \/
   router w' = snd (StopVPNService r) \/
   router w' = snd (GetServiceStatus r) \/
   router w' = r).
Proof.
  intros w' vm r. subst w' vm r. unfold handleAuthorizedCommand.
  set (w1 := storeUserMessageID (FromID message) (MessageID message) w).
  assert (Hw1 : router w1 = router w /\
                authorizedUsers (bot w1) = authorizedUsers (bot w) /\
                authCode (bot w1) = authCode (bot w) /\
                vpnManager (bot w1) = vpnManager (bot w)) by done.
  destruct Hw1 as (Hr & Hu & Hc & Hm). rewrite <- Hr, <- Hu, <- Hc, <- Hm.
  clearbody w1. clear Hr Hu Hc Hm.
  destruct (String.eqb_spec (Text message) CommandStatus) as [_ | _].
  { destruct (handleStatus_effect message w1) as (Hr & Hc & Hm & Hu).
    repeat split; try done; [|auto 10].
    intros U. apply (isUserAuthorized_updateCachedStatus_eq U (FromID message)
                       (fst (fst (GetStatus (vpnManager (bot w1)) (router w1))))).
    rewrite Hu. destruct (snd (fst _)); auto. }
  destruct (String.eqb_spec (Text message) CommandEnableVPN) as [Htext | _].
  { destruct (handleEnableVPN_effect message w1) as (Hr & Hc & Hm & Hu).
    repeat split; try done; [|auto 10].
    intros U. apply (isUserAuthorized_updateCachedStatus_eq U (FromID message)
                       VPNStatusEnabled).
    rewrite Hu. destruct (fst _); auto. }
  destruct (String.eqb_spec (Text message) CommandDisableVPN) as [Htext | _].
  { destruct (handleDisableVPN_effect message w1) as (Hr & Hc & Hm & Hu).
    repeat split; try done; [|auto 10].
    intros U. apply (isUserAuthorized_updateCachedStatus_eq U (FromID message)
                       VPNStatusDisabled).
    rewrite Hu. destruct (fst _); auto. }
  destruct (String.eqb_spec (Text message) CommandStartVPN) as [_ | _].
  { destruct (handleStartVPN_effect message w1) as (Hr & Hc & Hm & Hu).
    repeat split; try done; [by intros U; rewrite Hu | auto 10]. }
  destruct (String.eqb_spec (Text message) CommandStopVPN) as [_ | _].
  { destruct (handleStopVPN_effect message w1) as (Hr & Hc & Hm & Hu).
    repeat split; try done; [by intros U; rewrite Hu | auto 10]. }
  destruct (String.eqb_spec (Text message) CommandServiceStatus) as [_ | _].
  { destruct (handleServiceStatusMessage_effect message w1) as (Hr & Hc & Hm & Hu).
    repeat split; try done; [by intros U; rewrite Hu | auto 10]. }
  match goal with
  | |- context [sendMessage ?msg ?w0] =>
      destruct (onlyChats_sendMessage msg w0) as (Hr' & Hu' & Hc' & Hm')
  end.
  destruct (onlyChats_deleteUserMessage (ChatID message) (MessageID message) w1)
    as (Hr & Hu & Hc & Hm).
  rewrite Hr', Hu', Hc', Hm', Hr, Hu, Hc, Hm. repeat split; auto 10.
Qed.

Lemma handleUpdate_authorization {any} {J : JSON any} (update : option Message)
    (w : World) (U : Z) :
  let w' := handleUpdate update w in
  authCode (bot w') = authCode (bot w) /\
  (isUserAuthorized U (authorizedUsers (bot w')) = true <->
   isUserAuthorized U (authorizedUsers (bot w)) = true \/
   exists message, update = Some message /\ FromID message = U /\
                   presentsCode (authCode (bot w)) message).
Proof.
  intros w'. subst w'. unfold handleUpdate, presentsCode.
  destruct update as [message|]; [|split; [done|]; split; [auto|]; by intros [? | (? & [=] & _)]].
  destruct (HasPrefix (Text message) CommandStart) eqn:Hstart.
  { destruct (onlyChats_sendMessage
                (withParseMode (NewMessage (ChatID message) welcomeText) "Markdown") w)
      as (_ & Hu & Hc & _).
    unfold handleStart. rewrite Hu, Hc. split; [done|]. split; [auto|].
    intros [? | (m & [= <-] & _ & ? & _)]; [done | congruence]. }
  destruct (HasPrefix (Text message) CommandAuth) eqn:Hauth.
  { destruct (handleAuth_inv message w)
      as (Hc & _ & [(Hcode & _ & Hcache) | (Hnocode & _ & Hu & _)]);
      rewrite Hc; (split; [done|]).
    - rewrite Hcache. unfold isUserAuthorized, authorizeUser.
      destruct (decide (FromID message = U)) as [<- | Hne].
      + rewrite lookup_insert_eq. split; [intros _|done]. right. by exists message.
      + rewrite lookup_insert_ne by done. split; [auto|].
        intros [? | (m & [= <-] & ? & _)]; [done | congruence].
    - rewrite Hu. split; [auto|].
      intros [? | (m & [= <-] & _ & _ & _ & Hcode)]; [done | by destruct Hnocode]. }
  destruct (isUserAuthorized (FromID message) (authorizedUsers (bot w))) eqn:Hknown.
  { destruct (handleAuthorizedCommand_effect message w) as (Hc & _ & Hu & _).
    rewrite Hc, Hu. split; [done|]. split; [auto|].
    intros [? | (m & [= <-] & _ & _ & ? & _)]; [done | congruence]. }
  destruct (onlyChats_sendMessage (NewMessage (ChatID message) unauthorizedText) w)
    as (_ & Hu & Hc & _).
  unfold sendUnauthorizedMessage. rewrite Hu, Hc. split; [done|]. split; [auto|].
  intros [? | (m & [= <-] & _ & _ & ? & _)]; [done | congruence].
Qed.

Lemma handleUpdates_authCode {any} {J : JSON any} (updates : list (option Message))
    (w : World) :
  authCode (bot (handleUpdates updates w)) = authCode (bot w).
Proof.
  unfold handleUpdates. revert w.
  induction updates as [|update updates IH]; intros w; simpl; [done|].
  rewrite IH. apply (proj1 (handleUpdate_authorization update w 0)).
Qed.

(** The users the bot holds as authorized after any sequence of updates are
    those who were authorized before and those who sent a message that goes
    to [handleAuth] with the configured code as its second and last field:
    nothing else authorizes, and nothing removes an authorization. *)
Theorem authorized_iff_presented_the_code {any} {J : JSON any}
    (updates : list (option Message)) (w : World) (U : Z) :
  isUserAuthorized U (authorizedUsers (bot (handleUpdates updates w))) = true <->
  isUserAuthorized U (authorizedUsers (bot w)) = true \/
  exists message, Some message ∈ updates /\ FromID message = U /\
                  presentsCode (authCode (bot w)) message.
Proof.
  unfold handleUpdates. revert w.
  induction updates as [|update updates IH]; intros w; simpl.
  - split; [auto|]. intros [? | (m & Hin & _)]; [done | by apply not_elem_of_nil in Hin].
  - rewrite IH.
    destruct (handleUpdate_authorization update w U) as [Hcode Hstep].
    rewrite Hcode, Hstep. split.
    + intros [[? | (m & -> & ? & ?)] | (m & Hin & ? & ?)]; auto.
      * right. exists m. split; [apply elem_of_cons; by left | done].
      * right. exists m. split; [apply elem_of_cons; by right | done].
    + intros [? | (m & Hin & ? & ?)]; auto.
      apply elem_of_cons in Hin as [<- | Hin].
      * left. right. by exists m.
      * right. by exists m.
Qed.

Lemma eventsSince_same (r : Remote) : eventsSince r r = [].
Proof. unfold eventsSince. apply drop_all. Qed.

Lemma ExecuteCommand_events (cmd : Command) (r : Remote) :
  exists ok, eventsSince r (snd (ExecuteCommand cmd r)) = [(cmd, ok)].
Proof.
  destruct (ExecuteCommand cmd r) as [[output err] r1] eqn:Hexec.
  apply ExecuteCommand_inv in Hexec. simpl.
  destruct err; [subst r1 | destruct Hexec as (fs & _ & ->)];
    eexists; by apply eventsSince_app.
Qed.

Lemma service_command_events (r : Remote) :
  (exists ok, eventsSince r (snd (StartVPNService r)) = [(CmdXkeenStart, ok)]) /\
  (exists ok, eventsSince r (snd (StopVPNService r)) = [(CmdXkeenStop, ok)]) /\
  (exists ok, eventsSince r (snd (GetServiceStatus r)) = [(CmdXkeenStatus, ok)]).
Proof.
  unfold StartVPNService, StartService, StopVPNService, StopService, GetServiceStatus.
  pose proof (ExecuteCommand_events CmdXkeenStart r) as H1.
  pose proof (ExecuteCommand_events CmdXkeenStop r) as H2.
  pose proof (ExecuteCommand_events CmdXkeenStatus r) as H3.
  destruct (ExecuteCommand CmdXkeenStart r) as [[o1 e1] r1].
  destruct (ExecuteCommand CmdXkeenStop r) as [[o2 e2] r2].
  destruct (ExecuteCommand CmdXkeenStatus r) as [[o3 e3] r3].
  by destruct e1, e2, e3.
Qed.

Lemma handleUpdate_before_authorization {any} {J : JSON any} (message : Message)
    (w : World) :
  let w' := handleUpdate (Some message) w in
  HasPrefix (Text message) CommandStart = true \/
  HasPrefix (Text message) CommandAuth = true \/
  isUserAuthorized (FromID message) (authorizedUsers (bot w)) = false ->
  router w' = router w \/
  (presentsCode (authCode (bot w)) message /\
   router w' = snd (GetStatus (vpnManager (bot w)) (router w))).
Proof.
  intros w' Hcase. subst w'. unfold handleUpdate, presentsCode.
  destruct (HasPrefix (Text message) CommandStart) eqn:Hstart.
  { left. apply (onlyChats_sendMessage
                   (withParseMode (NewMessage (ChatID message) welcomeText) "Markdown") w). }
  destruct (HasPrefix (Text message) CommandAuth) eqn:Hauth.
  { destruct (handleAuth_inv message w)
      as (_ & _ & [(Hcode & Hrouter & _) | (_ & Hr & _)]); [right | by left].
    by repeat split. }
  destruct Hcase as [? | [? | Hunknown]]; try discriminate.
  rewrite Hunknown. left.
  apply (onlyChats_sendMessage (NewMessage (ChatID message) unauthorizedText) w).
Qed.

(** Whatever a user who is not authorized sends, the router receives at most
    the one [cat] of the configuration file, and that only when the message
    presents the code; no remote file changes. *)
Theorem unauthorized_sender_only_reads {any} {J : JSON any} (message : Message)
    (w : World) :
  isUserAuthorized (FromID message) (authorizedUsers (bot w)) = false ->
  let w' := handleUpdate (Some message) w in
  files (router w') = files (router w) /\
  (eventsSince (router w) (router w') = [] \/
   presentsCode (authCode (bot w)) message /\
   exists ok, eventsSince (router w) (router w')
              = [(CmdCat (configPath (vpnManager (bot w))), ok)]).
Proof.
  intros Hunknown w'.
  destruct (handleUpdate_before_authorization message w) as [Hr | [Hcode Hr]]; [auto| |];
    fold w' in Hr; rewrite Hr.
  - split; [done|]. left. apply eventsSince_same.
  - destruct (reads_send_one_cat (vpnManager (bot w)) (router w))
      as [[Hfiles Hevents] _].
    split; [done|]. by right.
Qed.

Lemma unauthorized_sender_only_reads_witness :
  let J := sampleJSON in
  let w := startWorld "secret" (docOf [adsRule; defaultRule "direct"]) [] in
  let w' := handleUpdate (Some (mkMessage 9 43 "bob" 43 CommandEnableVPN "12:00")) w in
  files (router w') = files (router w) /\
  (eventsSince (router w) (router w') = [] \/
   presentsCode (authCode (bot w)) (mkMessage 9 43 "bob" 43 CommandEnableVPN "12:00") /\
   exists ok, eventsSince (router w) (router w')
              = [(CmdCat (configPath (vpnManager (bot w))), ok)]).
Proof.
  intros J w w'.
  apply (unauthorized_sender_only_reads
           (J := J) (mkMessage 9 43 "bob" 43 CommandEnableVPN "12:00") w).
  vm_compute. reflexivity.
Defined.

(** The configuration file is written only for an authorized user who sent
    exactly one of the two routing buttons: a heredoc among the commands that
    an update caused means the sender was authorized and the text was
    [CommandEnableVPN] or [CommandDisableVPN]. *)
Theorem heredoc_only_for_routing_buttons {any} {J : JSON any}
    (update : option Message) (w : World) (filePath content : string) (ok : bool) :
  (CmdHeredoc filePath content, ok)
    ∈ eventsSince (router w) (router (handleUpdate update w)) ->
  exists message,
    update = Some message /\
    isUserAuthorized (FromID message) (authorizedUsers (bot w)) = true /\
    (Text message = CommandEnableVPN \/ Text message = CommandDisableVPN).
Proof.
  intros Hin.
  destruct update as [message|];
    [|simpl in Hin; rewrite eventsSince_same in Hin; by apply not_elem_of_nil in Hin].
  exists message. split; [done|].
  assert (Hcat : forall r' okc,
             eventsSince (router w) r' = [(CmdCat (configPath (vpnManager (bot w))), okc)] ->
             (CmdHeredoc filePath content, ok) ∉ eventsSince (router w) r').
  { intros r' okc ->. intros H. apply list_elem_of_singleton in H. discriminate. }
  destruct (reads_send_one_cat (vpnManager (bot w)) (router w))
    as [[_ [okc Hread]] _].
  destruct (decide (HasPrefix (Text message) CommandStart = true \/
                    HasPrefix (Text message) CommandAuth = true \/
                    isUserAuthorized (FromID message) (authorizedUsers (bot w)) = false))
    as [Hbefore | Hauthorized].
  { exfalso.
    destruct (handleUpdate_before_authorization message w Hbefore) as [Hr | [_ Hr]];
      rewrite Hr in Hin.
    - rewrite eventsSince_same in Hin. by apply not_elem_of_nil in Hin.
    - by apply (Hcat _ _ Hread). }
  assert (Hstart : HasPrefix (Text message) CommandStart = false)
    by (destruct (HasPrefix (Text message) CommandStart); tauto).
  assert (Hauth : HasPrefix (Text message) CommandAuth = false)
    by (destruct (HasPrefix (Text message) CommandAuth); tauto).
  assert (Hknown : isUserAuthorized (FromID message) (authorizedUsers (bot w)) = true)
    by (destruct (isUserAuthorized (FromID message) (authorizedUsers (bot w))); tauto).
  split; [done|].
  unfold handleUpdate in Hin. rewrite Hstart, Hauth, Hknown in Hin.
  destruct (service_command_events (router w)) as ([ok1 H1] & [ok2 H2] & [ok3 H3]).
  destruct (handleAuthorizedCommand_effect message w)
    as (_ & _ & _ & [[? _] | [[? _] | [Hr | [Hr | [Hr | [Hr | Hr]]]]]]); auto;
    exfalso; rewrite Hr in Hin.
  - by apply (Hcat _ _ Hread).
  - rewrite H1 in Hin. apply list_elem_of_singleton in Hin. discriminate.
  - rewrite H2 in Hin. apply list_elem_of_singleton in Hin. discriminate.
  - rewrite H3 in Hin. apply list_elem_of_singleton in Hin. discriminate.
  - rewrite eventsSince_same in Hin. by apply not_elem_of_nil in Hin.
Qed.

Lemma heredoc_only_for_routing_buttons_witness :
  let J := sampleJSON in
  let w := handleUpdate (Some (mkMessage 5 42 "ann" 42 "/auth secret" "12:00"))
             (startWorld "secret" (docOf [adsRule; defaultRule "direct"]) []) in
  let update := Some (mkMessage 6 42 "ann" 42 CommandEnableVPN "12:01") in
  (CmdHeredoc (configPath NewVPNManager)
     (printConfig (docOf [adsRule; defaultRule "vless-reality"])), true)
    ∈ eventsSince (router w) (router (handleUpdate update w)) /\
  exists message,
    update = Some message /\
    isUserAuthorized (FromID message) (authorizedUsers (bot w)) = true /\
    (Text message = CommandEnableVPN \/ Text message = CommandDisableVPN).
Proof.
  intros J w update.
  assert (Hin : (CmdHeredoc (configPath NewVPNManager)
                   (printConfig (docOf [adsRule; defaultRule "vless-reality"])), true)
                ∈ eventsSince (router w) (router (handleUpdate update w))).
  { vm_compute. do 2 (apply elem_of_cons; right). apply elem_of_cons. by left. }
  split; [exact Hin|].
  exact (heredoc_only_for_routing_buttons (J := J) update w _ _ _ Hin).
Defined.

(** ** telegram_bot.go: the cache behind the buttons *)

Lemma getCachedStatus_updateCachedStatus (U U' : Z) (S : VPNStatus)
    (users : gmap Z VPNStatus) :
  getCachedStatus U (updateCachedStatus U' S users)
  = if decide (U = U') then
      (if isUserAuthorized U' users then S else VPNStatusUnknown)
    else getCachedStatus U users.
Proof.
  unfold getCachedStatus, updateCachedStatus, isUserAuthorized.
  destruct (decide (U = U')) as [-> | Hne].
  - destruct (users !! U') eqn:HU'; [by rewrite lookup_insert_eq | by rewrite HU'].
  - destruct (users !! U'); [by rewrite lookup_insert_ne | done].
Qed.

(** The routing buttons refresh the sender's cached status only when the
    mutation succeeded: after a successful [EnableVPN] it reads "enabled",
    after a successful [DisableVPN] "disabled", without a new read of the
    router; when the mutation fails the cache is left as it was.  Other
    users' entries never change. *)
Theorem routing_buttons_cache_the_new_status {any} {J : JSON any}
    (message : Message) (w : World) :
  isUserAuthorized (FromID message) (authorizedUsers (bot w)) = true ->
  let vm := vpnManager (bot w) in
  let enabled := authorizedUsers (bot (handleEnableVPN message w)) in
  let disabled := authorizedUsers (bot (handleDisableVPN message w)) in
  (fst (EnableVPN vm (router w)) = None ->
   getCachedStatus (FromID message) enabled = VPNStatusEnabled) /\
  (fst (EnableVPN vm (router w)) <> None -> enabled = authorizedUsers (bot w)) /\
  (fst (DisableVPN vm (router w)) = None ->
   getCachedStatus (FromID message) disabled = VPNStatusDisabled) /\
  (fst (DisableVPN vm (router w)) <> None -> disabled = authorizedUsers (bot w)) /\
  (forall U, U <> FromID message ->
     getCachedStatus U enabled = getCachedStatus U (authorizedUsers (bot w)) /\
     getCachedStatus U disabled = getCachedStatus U (authorizedUsers (bot w))).
Proof.
  intros Hknown vm enabled disabled. subst vm enabled disabled.
  destruct (handleEnableVPN_effect message w) as (_ & _ & _ & He).
  destruct (handleDisableVPN_effect message w) as (_ & _ & _ & Hd).
  rewrite He, Hd.
  destruct (fst (EnableVPN (vpnManager (bot w)) (router w))) as [e1|];
    destruct (fst (DisableVPN (vpnManager (bot w)) (router w))) as [e2|];
    repeat split; try done;
    rewrite ?getCachedStatus_updateCachedStatus, ?Hknown;
    try (by rewrite decide_True); by rewrite decide_False.
Qed.

Lemma routing_buttons_cache_the_new_status_witness :
  let J := sampleJSON in
  let w := handleUpdate (Some (mkMessage 5 42 "ann" 42 "/auth secret" "12:00"))
             (startWorld "secret" (docOf [adsRule; defaultRule "direct"]) []) in
  let message := mkMessage 6 42 "ann" 42 CommandEnableVPN "12:01" in
  getCachedStatus 42 (authorizedUsers (bot w)) = VPNStatusDisabled /\
  getCachedStatus 42 (authorizedUsers (bot (handleEnableVPN message w))) = VPNStatusEnabled.
Proof.
  intros J w message. split; [vm_compute; reflexivity|].
  apply (routing_buttons_cache_the_new_status (J := J) message w).
  - vm_compute. reflexivity.
  - vm_compute. reflexivity.
Defined.

(** ** telegram_bot.go: progress messages *)

Lemma sendProgressiveMessage_inv (chatID : Z) (initialText msgType : string)
    (userMsgID : Z) (w w1 : World) (msgID : Z) :
  sendProgressiveMessage chatID initialText msgType userMsgID w = (msgID, w1) ->
  exists deletions ok,
    sent (telegram w1)
    = sent (telegram w) ++ deletions ++ [(SendText (NewMessage chatID initialText), ok)] /\
    Forall (fun call => exists messageID, fst call = DeleteMessage chatID messageID)
           deletions /\
    (forall lastMessageID,
        sameTypeBefore (lastMessages (bot w) !! chatID) (lastMsgType (bot w) !! chatID)
                       msgType = Some lastMessageID ->
        exists okd rest, deletions = (DeleteMessage chatID lastMessageID, okd) :: rest) /\
    (ok = true ->
     msgID = nextMessageID (telegram w) /\
     lastMessages (bot w1) !! chatID = Some msgID /\
     lastMsgType (bot w1) !! chatID = Some msgType) /\
    (ok = false -> msgID = 0%Z /\ bot w1 = bot w).
Proof.
  unfold sendProgressiveMessage.
  set (previous := sameTypeBefore _ _ _).
  set (wa := match previous with Some _ => _ | None => w end).
  assert (Ha : exists d1,
             sent (telegram wa) = sent (telegram w) ++ d1 /\
             bot wa = bot w /\ nextMessageID (telegram wa) = nextMessageID (telegram w) /\
             Forall (fun call => exists messageID, fst call = DeleteMessage chatID messageID) d1 /\
             forall lastMessageID, previous = Some lastMessageID ->
               exists okd, d1 = [(DeleteMessage chatID lastMessageID, okd)]).
  { subst wa. destruct previous as [lastMessageID|].
    - destruct (botSend (DeleteMessage chatID lastMessageID) w) as [[id okd] w0] eqn:Hsend.
      apply botSend_inv in Hsend as (Hbot & _ & Hsent & _ & _ & Hnext & _).
      exists [(DeleteMessage chatID lastMessageID, okd)]. simpl.
      repeat split; try done.
      + by apply (Hnext chatID lastMessageID).
      + repeat constructor. by exists lastMessageID.
      + intros ? [= <-]. by exists okd.
    - exists []. rewrite app_nil_r. repeat split; try done. }
  destruct Ha as (d1 & Hsa & Hba & Hna & Hda & Hfirst). clearbody wa.
  set (wb := if (0 <? userMsgID)%Z then _ else wa).
  assert (Hb : exists d2,
             sent (telegram wb) = sent (telegram wa) ++ d2 /\
             bot wb = bot wa /\ nextMessageID (telegram wb) = nextMessageID (telegram wa) /\
             Forall (fun call => exists messageID, fst call = DeleteMessage chatID messageID) d2).
  { subst wb. destruct (0 <? userMsgID)%Z.
    - destruct (botSend (DeleteMessage chatID userMsgID) wa) as [[id okd] w0] eqn:Hsend.
      apply botSend_inv in Hsend as (Hbot & _ & Hsent & _ & _ & Hnext & _).
      exists [(DeleteMessage chatID userMsgID, okd)]. simpl.
      repeat split; try done.
      + by apply (Hnext chatID userMsgID).
      + repeat constructor. by exists userMsgID.
    - exists []. rewrite app_nil_r. repeat split; try done. }
  destruct Hb as (d2 & Hsb & Hbb & Hnb & Hdb). clearbody wb.
  destruct (botSend (SendText (NewMessage chatID initialText)) wb)
    as [[messageID ok] wc] eqn:Hsend.
  apply botSend_inv in Hsend as (Hbot & _ & Hsent & Hfail & Hok & _).
  intros Hresult. exists (d1 ++ d2), ok.
  split; [|split; [by apply Forall_app | split]].
  - destruct ok; injection Hresult as <- <-; simpl;
      rewrite Hsent, Hsb, Hsa, <- !app_assoc; done.
  - intros lastMessageID Hprev. destruct (Hfirst _ Hprev) as [okd ->].
    by exists okd, d2.
  - split.
    + intros ->. injection Hresult as <- <-. simpl.
      destruct (Hok eq_refl _ eq_refl) as [-> _]. rewrite Hnb, Hna.
      split; [done|]. split; [apply lookup_insert_eq|apply lookup_insert_eq].
    + intros ->. injection Hresult as <- <-. split; [done|]. congruence.
Qed.

(** A progress message that went out is remembered with its type, so the
    next progress message of the same type in the chat starts by deleting
    it. *)
Theorem progress_message_replaces_the_previous_one (chatID : Z)
    (text1 text2 msgType : string) (userMsg1 userMsg2 : Z) (w w1 : World) (msgID : Z) :
  (0 < nextMessageID (telegram w))%Z ->
  sendProgressiveMessage chatID text1 msgType userMsg1 w = (msgID, w1) ->
  msgID <> 0%Z ->
  exists ok rest,
    sentSince w1 (snd (sendProgressiveMessage chatID text2 msgType userMsg2 w1))
    = (DeleteMessage chatID msgID, ok) :: rest.
Proof.
  intros Hpositive Hfirst Hsent.
  apply sendProgressiveMessage_inv in Hfirst
    as (_ & ok1 & _ & _ & _ & Hok & Hfail).
  destruct ok1; [|by destruct (Hfail eq_refl)].
  destruct (Hok eq_refl) as (Hid & Hlast & Htype).
  destruct (sendProgressiveMessage chatID text2 msgType userMsg2 w1)
    as [msgID2 w2] eqn:Hsecond.
  apply sendProgressiveMessage_inv in Hsecond
    as (deletions & ok2 & Hsent2 & _ & Hprevious & _).
  destruct (Hprevious msgID) as (okd & rest & ->).
  { rewrite Hlast, Htype. unfold sameTypeBefore.
    rewrite String.eqb_refl.
    replace (0 <? msgID)%Z with true by (symmetry; apply Z.ltb_lt; lia). done. }
  exists okd, (rest ++ [(SendText (NewMessage chatID text2), ok2)]).
  simpl. by apply sentSince_app.
Qed.

Lemma progress_message_replaces_the_previous_one_witness :
  let w := startWorld "secret" (docOf [adsRule]) [] in
  let first := sendProgressiveMessage 42 "one" "vpn_status" 7 w in
  exists ok rest,
    sentSince (snd first) (snd (sendProgressiveMessage 42 "two" "vpn_status" 8 (snd first)))
    = (DeleteMessage 42 100, ok) :: rest.
Proof.
  intros w first.
  apply (progress_message_replaces_the_previous_one 42 "one" "two" "vpn_status" 7 8
           w (snd first) 100).
  - vm_compute. reflexivity.
  - vm_compute. reflexivity.
  - discriminate.
Defined.

(** ** telegram_bot.go: the status query *)

Lemma handleStatus_unfold {any} {J : JSON any} (message : Message) (w w1 : World)
    (msgID : Z) :
  sendProgressiveMessage (ChatID message) "🔍 Checking traffic routing status..."
    "vpn_status" (MessageID message) w = (msgID, w1) ->
  let result := GetStatus (vpnManager (bot w)) (router w) in
  let cached := getCachedStatus (FromID message) (authorizedUsers (bot w)) in
  let text :=
    match snd (fst result) with
    | None => routingStatusText (fst (fst result)) (TimeHHMM message)
    | Some _ =>
        if String.eqb cached VPNStatusUnknown then "❌ Status check failed"
        else routingStatusText cached (TimeHHMM message)
    end in
  exists w2,
    telegram w2 = telegram w1 /\
    handleStatus message w = updateProgressiveMessage (ChatID message) msgID text w2.
Proof.
  intros Hprogress result cached text. subst result cached text.
  pose proof (onlyChats_sendProgressiveMessage (ChatID message)
                "🔍 Checking traffic routing status..." "vpn_status"
                (MessageID message) w) as (Hr & Hu & _ & Hm).
  unfold handleStatus. rewrite Hprogress in *. simpl in Hr, Hu, Hm.
  rewrite Hm, Hr, Hu.
  destruct (GetStatus (vpnManager (bot w)) (router w)) as [[status err] r1]. simpl.
  destruct err as [e|].
  - exists (setRouter w1 r1). split; [done|].
    by destruct (String.eqb _ VPNStatusUnknown).
  - eexists. split; [|reflexivity]. done.
Qed.

(** When the read of the router fails, [handleStatus] answers from the cache:
    the progress message is edited to the routing text of the cached status,
    or to "Status check failed" when the cached status is "unknown"; the
    cache itself is not touched. *)
Theorem handleStatus_falls_back_on_cache {any} {J : JSON any}
    (message : Message) (w w1 : World) (msgID : Z) :
  sendProgressiveMessage (ChatID message) "🔍 Checking traffic routing status..."
    "vpn_status" (MessageID message) w = (msgID, w1) ->
  msgID <> 0%Z ->
  snd (fst (GetStatus (vpnManager (bot w)) (router w))) <> None ->
  let cached := getCachedStatus (FromID message) (authorizedUsers (bot w)) in
  let w' := handleStatus message w in
  authorizedUsers (bot w') = authorizedUsers (bot w) /\
  exists ok rest,
    sentSince w1 w'
    = (EditMessageText (ChatID message) msgID
         (if String.eqb cached VPNStatusUnknown then "❌ Status check failed"
          else routingStatusText cached (TimeHHMM message))
         "Markdown", ok) :: rest.
Proof.
  intros Hprogress Hsent Hfailed cached w'. subst cached w'.
  destruct (handleStatus_effect message w) as (_ & _ & _ & Hcache).
  destruct (handleStatus_unfold message w w1 msgID Hprogress) as (w2 & Htelegram & Heq).
  destruct (snd (fst (GetStatus (vpnManager (bot w)) (router w)))) as [e|]; [|done].
  split; [exact Hcache|]. rewrite Heq.
  match goal with
  | |- context [updateProgressiveMessage ?c ?i ?t ?w0] =>
      destruct (proj2 (updateProgressiveMessage_sent c i t w0) Hsent)
        as (ok & rest & Hcalls)
  end.
  exists ok, rest. apply sentSince_app. by rewrite Hcalls, Htelegram.
Qed.

Lemma handleStatus_falls_back_on_cache_witness :
  let J := sampleJSON in
  let w0 := handleUpdate (Some (mkMessage 5 42 "ann" 42 "/auth secret" "12:00"))
              (startWorld "secret" (docOf [adsRule; defaultRule "vless-reality"])
                 [None; Some connectionLost]) in
  let message := mkMessage 6 42 "ann" 42 CommandStatus "12:01" in
  let progress := sendProgressiveMessage 42 "🔍 Checking traffic routing status..."
                    "vpn_status" 6 w0 in
  let w' := handleStatus message w0 in
  authorizedUsers (bot w') = authorizedUsers (bot w0) /\
  exists ok rest,
    sentSince (snd progress) w'
    = (EditMessageText 42 101 (routingStatusText VPNStatusEnabled "12:01") "Markdown", ok)
        :: rest.
Proof.
  intros J w0 message progress w'.
  apply (handleStatus_falls_back_on_cache (J := J) message w0 (snd progress) 101).
  - vm_compute. reflexivity.
  - discriminate.
  - vm_compute. discriminate.
Defined.

(** When the progress message could not be sent, [handleStatus] and
    [handleServiceStatus] still run their command on the router but send
    nothing more: the user gets no answer at all. *)
Theorem failed_progress_message_leaves_no_answer {any} {J : JSON any}
    (message : Message) (w : World) :
  (forall w1,
      sendProgressiveMessage (ChatID message) "🔍 Checking traffic routing status..."
        "vpn_status" (MessageID message) w = (0%Z, w1) ->
      telegram (handleStatus message w) = telegram w1 /\
      router (handleStatus message w) = snd (GetStatus (vpnManager (bot w)) (router w))) /\
  (forall w1,
      sendProgressiveMessage (ChatID message) "🔋 Checking VPN daemon status..."
        "service_status" (MessageID message) w = (0%Z, w1) ->
      telegram (handleServiceStatusMessage message w) = telegram w1 /\
      router (handleServiceStatusMessage message w) = snd (GetServiceStatus (router w))).
Proof.
  split; intros w1 Hprogress.
  - split; [|apply handleStatus_effect].
    destruct (handleStatus_unfold message w w1 0 Hprogress) as (w2 & Htelegram & ->).
    by rewrite (proj1 (updateProgressiveMessage_sent (ChatID message) 0 _ w2) eq_refl).
  - split; [|apply handleServiceStatusMessage_effect].
    unfold handleServiceStatusMessage. rewrite Hprogress.
    destruct (handleServiceStatus (TimeHHMM message) (router w1)) as [responseText r1].
    by rewrite (proj1 (updateProgressiveMessage_sent (ChatID message) 0 _ _) eq_refl).
Qed.

Lemma failed_progress_message_leaves_no_answer_witness :
  let J := sampleJSON in
  let w := mkWorld (bot (startWorld "secret" (docOf [adsRule; defaultRule "direct"]) []))
             (routerWith (docOf [adsRule; defaultRule "direct"]) [])
             {| sendFaults := [false; true]; nextMessageID := 100; sent := [] |} in
  let message := mkMessage 6 42 "ann" 42 CommandStatus "12:01" in
  sentSince w (handleStatus message w)
    = [(DeleteMessage 42 6, true);
       (SendText (NewMessage 42 "🔍 Checking traffic routing status..."), false)] /\
  eventsSince (router w) (router (handleStatus message w))
    = [(CmdCat (configPath NewVPNManager), true)].
Proof.
  intros J w message.
  destruct (proj1 (failed_progress_message_leaves_no_answer (J := J) message w)
              (snd (sendProgressiveMessage 42 "🔍 Checking traffic routing status..."
                      "vpn_status" 6 w)))
    as [Htelegram Hrouter].
  - vm_compute. reflexivity.
  - unfold sentSince. rewrite Htelegram, Hrouter. split; vm_compute; reflexivity.
Defined.

(** A successful status query refreshes the sender's cached status with the
    status just read, and leaves every other user's entry alone. *)
Theorem handleStatus_refreshes_the_cache {any} {J : JSON any}
    (message : Message) (w : World) (status : VPNStatus) (r1 : Remote) :
  isUserAuthorized (FromID message) (authorizedUsers (bot w)) = true ->
  GetStatus (vpnManager (bot w)) (router w) = (status, None, r1) ->
  let w' := handleStatus message w in
  getCachedStatus (FromID message) (authorizedUsers (bot w')) = status /\
  router w' = r1 /\
  forall U, U <> FromID message ->
    getCachedStatus U (authorizedUsers (bot w'))
    = getCachedStatus U (authorizedUsers (bot w)).
Proof.
  intros Hknown Hstatus w'. subst w'.
  destruct (handleStatus_effect message w) as (Hr & _ & _ & Hcache).
  rewrite Hstatus in Hr, Hcache. simpl in Hr, Hcache. rewrite Hr, Hcache.
  repeat split; try done.
  - by rewrite getCachedStatus_updateCachedStatus, decide_True, Hknown.
  - intros U HU. by rewrite getCachedStatus_updateCachedStatus, decide_False.
Qed.

Lemma handleStatus_refreshes_the_cache_witness :
  let J := sampleJSON in
  let w0 := handleUpdate (Some (mkMessage 5 42 "ann" 42 "/auth secret" "12:00"))
              (startWorld "secret" (docOf [adsRule; defaultRule "direct"]) []) in
  let w := setRouter w0 (routerWith (docOf [adsRule; defaultRule "vless-reality"]) []) in
  let message := mkMessage 6 42 "ann" 42 CommandStatus "12:01" in
  getCachedStatus 42 (authorizedUsers (bot w)) = VPNStatusDisabled /\
  getCachedStatus 42 (authorizedUsers (bot (handleStatus message w))) = VPNStatusEnabled.
Proof.
  intros J w0 w message. split; [vm_compute; reflexivity|].
  apply (handleStatus_refreshes_the_cache (J := J) message w VPNStatusEnabled
           (snd (GetStatus (vpnManager (bot w)) (router w)))).
  - vm_compute. reflexivity.
  - vm_compute. reflexivity.
Defined.

(** A text that starts with "/start" is answered with the welcome text,
    whoever sends it and whatever follows the command, a code included: it
    reaches neither the router nor the authorization cache. *)
Theorem start_prefix_takes_precedence {any} {J : JSON any} (message : Message)
    (w : World) :
  HasPrefix (Text message) CommandStart = true ->
  let w' := handleUpdate (Some message) w in
  onlyChats w w' /\
  exists ok rest,
    sentSince w w'
    = (SendText (withParseMode (NewMessage (ChatID message) welcomeText) "Markdown"), ok)
        :: rest.
Proof.
  intros Hstart w'. subst w'. unfold handleUpdate. rewrite Hstart. unfold handleStart.
  split; [apply onlyChats_sendMessage|].
  unfold sendMessage.
  destruct (sendMessageLoop_attempts 3
              (withParseMode (NewMessage (ChatID message) welcomeText) "Markdown") w)
    as [(failures & _ & Hsent & _) | (Hsent & _)];
    apply sentSince_app in Hsent; rewrite Hsent.
  - destruct failures; simpl; by eexists _, _.
  - simpl. by eexists _, _.
Qed.

Lemma start_prefix_takes_precedence_witness :
  let J := sampleJSON in
  let w := startWorld "secret" (docOf [adsRule; defaultRule "direct"]) [] in
  let message := mkMessage 5 42 "ann" 42 "/start /auth secret" "12:00" in
  let w' := handleUpdate (Some message) w in
  isUserAuthorized 42 (authorizedUsers (bot w')) = false /\
  onlyChats w w' /\
  exists ok rest,
    sentSince w w'
    = (SendText (withParseMode (NewMessage 42 welcomeText) "Markdown"), ok) :: rest.
Proof.
  intros J w message w'. split; [vm_compute; reflexivity|].
  apply (start_prefix_takes_precedence (J := J) message w).
  vm_compute. reflexivity.
Defined.
